(** * server.py: the manifest editor and the compatibility check

    A shallow embedding of the two tools of [server.py] that carry policy:
    [update_library_version], which rewrites one version in the root
    [pom.xml], and [check_compatibility], which scans a source tree, assembles
    a bounded prompt and turns the outcome of one HTTP call into a result.

    Python strings are modelled as [string] (text restricted to the
    characters of [ascii]), [None]-able values as [option], a raised
    exception as the left summand of [exn + A], and the objects that
    ElementTree mutates in place as paths into an immutable tree. *)

From Stdlib Require Import Ascii.
From stdpp Require Import gmap strings list.

Local Open Scope nat_scope.

Set Warnings "-register-all,-clear-no-such-hyp".

(** ** Python strings *)

Module Str.

(** [sub in s] *)
Fixpoint contains (sub s : string) : bool :=
  String.prefix sub s ||
  match s with
  | EmptyString => false
  | String _ s' => contains sub s'
  end.

(** [s.endswith(suffix)] *)
Definition endswith (s suffix : string) : bool :=
  let n := String.length s in
  let m := String.length suffix in
  (m <=? n) && String.eqb (String.substring (n - m) m s) suffix.

(** [s.endswith((t1, t2, ...))] *)
Definition endswith_any (s : string) (suffixes : list string) : bool :=
  existsb (endswith s) suffixes.

Definition lower_ascii (c : ascii) : ascii :=
  let n := nat_of_ascii c in
  if (65 <=? n) && (n <=? 90) then ascii_of_nat (n + 32) else c.

(** [s.lower()] *)
Fixpoint lower (s : string) : string :=
  match s with
  | EmptyString => EmptyString
  | String c s' => String (lower_ascii c) (lower s')
  end.

(** [s[:n]] *)
Definition slice_to (n : nat) (s : string) : string := String.substring 0 n s.

(** [c * n] for a one-character string *)
Fixpoint replicate (n : nat) (c : ascii) : string :=
  match n with
  | 0 => EmptyString
  | S n' => String c (replicate n' c)
  end.

(** The line feed [\n]. *)
Definition newline : string := String "010" EmptyString.

(** [str(x)] inside an f-string, for a value that may be [None] *)
Definition format_opt (o : option string) : string :=
  match o with
  | Some s => s
  | None => "None"
  end.

End Str.

(** ** Exceptions *)

(** The Python types of decoded JSON values and of subscripts. *)
Inductive PyType : Type :=
| NoneType
| PyBool
| PyInt
| PyFloat
| PyStr
| PyList
| PyDict.

(** The exceptions the two tools can meet.  [KeyError], [IndexError] and
    [TypeError] are raised by subscripting the decoded response body; the
    message of a [TypeError] depends on the type of the value subscripted
    and on the type of the subscript, which it therefore carries.
    [Raised] stands for whatever the environment raises (an [OSError], a
    decoding error, an XML or JSON parse error, a transport failure, a
    failure inside the XML writer) and carries the text [str(e)] gives. *)
Inductive exn : Type :=
| KeyError (key : string)
| IndexError
| TypeError (operand subscript : PyType)
| Raised (message : string).

(** A computation that returns an [A] or raises. *)
Definition py (A : Type) : Type := (exn + A)%type.

Definition raise {A} (e : exn) : py A := inl e.

#[global] Instance py_ret : MRet py := fun A a => inr a.

#[global] Instance py_bind : MBind py := fun A B k m =>
  match m with
  | inl e => inl e
  | inr a => k a
  end.

(** [try: body / except Exception as e: handler(e)] *)
Definition try_except {A} (body : py A) (handler : exn → py A) : py A :=
  match body with
  | inl e => handler e
  | inr a => inr a
  end.

(** The dictionaries both tools return. *)
Inductive ToolResult (A : Type) : Type :=
| Success (payload : A)
| Error (message : string).
Arguments Success {A} payload.
Arguments Error {A} message.

(** ** xml.etree.ElementTree *)

Module ET.

(** An element as ElementTree holds it: the tag in Clark notation
    ([{uri}local]), the attributes, the text before the first child, the
    text after the end tag, and the children in document order. *)
Inductive Element : Type :=
| Elem (tag : string) (attrib : list (string * string))
       (text : option string) (tail : option string)
       (children : list Element).

Definition tag (e : Element) : string :=
  match e with Elem t _ _ _ _ => t end.
Definition attrib (e : Element) : list (string * string) :=
  match e with Elem _ a _ _ _ => a end.
Definition text (e : Element) : option string :=
  match e with Elem _ _ x _ _ => x end.
Definition tail (e : Element) : option string :=
  match e with Elem _ _ _ x _ => x end.
Definition children (e : Element) : list Element :=
  match e with Elem _ _ _ _ cs => cs end.

(** A reference to an element of a tree: the child indices that lead to it
    from the root.  The tools never add or remove elements, so a path
    names the same object for the whole call. *)
Definition path : Type := list nat.

Fixpoint node_at (e : Element) (p : path) {struct p} : option Element :=
  match p with
  | [] => Some e
  | i :: p' =>
      match children e !! i with
      | Some c => node_at c p'
      | None => None
      end
  end.

(** [e.iter()]: the element and all its descendants, in document order. *)
Fixpoint iter (e : Element) : list path :=
  match e with
  | Elem _ _ _ _ cs =>
      [] :: (fix over (cs : list Element) (i : nat) : list path :=
               match cs with
               | [] => []
               | c :: cs' => map (cons i) (iter c) ++ over cs' (S i)
               end) cs 0
  end.

(** The part of [iter] that runs over the children, [i] being the index of
    the first of them. *)
Fixpoint iter_forest (cs : list Element) (i : nat) : list path :=
  match cs with
  | [] => []
  | c :: cs' => map (cons i) (iter c) ++ iter_forest cs' (S i)
  end.

(** [list(root.iter())] as elements. *)
Definition elements (root : Element) : list Element :=
  omap (node_at root) (iter root).

Definition has_tag (root : Element) (t : string) (p : path) : bool :=
  match node_at root p with
  | Some e => String.eqb (tag e) t
  | None => false
  end.

(** [root.findall(".//t")]: every descendant of [root] (not [root]
    itself) with tag [t], in document order. *)
Definition findall_descendants (root : Element) (t : string) : list path :=
  List.filter (fun p => has_tag root t p && negb (bool_decide (p = [])))
              (iter root).

(** [e.find("t")]: the first child of [e] with tag [t], as its index. *)
Fixpoint find_from (t : string) (cs : list Element) (i : nat) : option nat :=
  match cs with
  | [] => None
  | c :: cs' => if String.eqb (tag c) t then Some i else find_from t cs' (S i)
  end.

Definition find (e : Element) (t : string) : option nat :=
  find_from t (children e) 0.

(** [x.text = v] for the element [x] at path [p]. *)
Fixpoint set_text (e : Element) (p : path) (v : option string) {struct p}
  : Element :=
  match p with
  | [] => Elem (tag e) (attrib e) v (tail e) (children e)
  | i :: p' =>
      match children e !! i with
      | Some c =>
          Elem (tag e) (attrib e) (text e) (tail e)
               (<[i := set_text c p' v]> (children e))
      | None => e
      end
  end.

(** What an element holds itself, apart from its children's contents. *)
Definition label (e : Element)
  : string * list (string * string) * option string * option string * nat :=
  (tag e, attrib e, text e, tail e, length (children e)).

(** [root'] is [root] with the text of the element at [p] replaced, and
    nothing else: every other element keeps its tag, attributes, text, tail
    and number of children, and the element at [p] keeps all but its text. *)
Definition same_except_text_at (root root' : Element) (p : path) : Prop :=
  (∀ q, q ≠ p → label <$> node_at root' q = label <$> node_at root q) ∧
  (∃ e e', node_at root p = Some e ∧ node_at root' p = Some e' ∧
           tag e' = tag e ∧ attrib e' = attrib e ∧ tail e' = tail e ∧
           children e' = children e).

(** A parsed file: whether it starts with an XML declaration, the encoding
    it is stored in, and the root element. *)
Record Document : Type := Doc {
  xml_declaration : bool;
  encoding : string;
  getroot : Element
}.

End ET.

(** ** update_library_version *)

Module Editor.
Import ET.

(** What [ET.parse] makes of a file: a document, or an exception (the file
    is not well-formed, cannot be read, is a directory). *)
Inductive FileContent : Type :=
| Unparsable (e : exn)
| Xml (d : Document).

Definition POM_NS : string := "http://maven.apache.org/POM/4.0.0".

(** The path expression [ns:local] under [{'ns': POM_NS}]. *)
Definition ns (local : string) : string := "{" +:+ POM_NS +:+ "}" +:+ local.

(** [artifact_id is not None and artifact_id.text == library_name] *)
Definition artifact_is (dependency : Element) (library_name : string) : bool :=
  match find dependency (ns "artifactId") with
  | Some i =>
      match children dependency !! i with
      | Some artifact_id => bool_decide (text artifact_id = Some library_name)
      | None => false
      end
  | None => false
  end.

(** The [for dependency in root.findall(...)] loop: the old text and the
    path of the version element that is overwritten, or [None] when the
    loop ends with [found] still false. *)
Fixpoint search (root : Element) (library_name : string) (deps : list path)
  : option (option string * path) :=
  match deps with
  | [] => None
  | d :: rest =>
      match node_at root d with
      | Some dependency =>
          if artifact_is dependency library_name then
            match find dependency (ns "version") with
            | Some j =>
                match children dependency !! j with
                | Some version => Some (text version, d ++ [j])
                | None => search root library_name rest
                end
            | None => search root library_name rest
            end
          else search root library_name rest
      | None => search root library_name rest
      end
  end.

(** A dependency entry the loop accepts: in the POM namespace, with an
    artifact identifier equal to the requested one and a version child. *)
Definition is_versioned_entry (library_name : string) (e : Element) : bool :=
  String.eqb (tag e) (ns "dependency")
  && artifact_is e library_name
  && bool_decide (is_Some (find e (ns "version"))).

(** The test of the loop on the element a path refers to. *)
Definition accepts (root : Element) (library_name : string) (d : path) : bool :=
  match node_at root d with
  | Some dependency =>
      artifact_is dependency library_name
      && bool_decide (is_Some (find dependency (ns "version")))
  | None => false
  end.

(** What a call of [tree.write] does.  Either it returns, and the file then
    holds [content] (what [ET.parse] would make of it); or it raises, and
    the file is untouched ([None]: the file could not be opened) or is left
    holding [content] (the writer had opened it and stopped part-way). *)
Inductive WriteOutcome : Type :=
| Written (content : FileContent)
| WriteRaises (e : exn) (remains : option FileContent).

(** The tree handed to the writer: [root] after
    [version.text = new_version], when the loop finds an entry. *)
Definition rewritten (root : Element) (library_name new_version : string)
  : option Element :=
  match search root library_name
          (findall_descendants root (ns "dependency")) with
  | Some (_, version) => Some (set_text root version (Some new_version))
  | None => None
  end.

Section WithStr.
(** [str(e)] *)
Variable str : exn → string.

(** [tree.write(pom_path, encoding=..., xml_declaration=...)] for the tree
    with the given root.  Serialising is ElementTree's and storing is the
    file system's, so the outcome is theirs to decide. *)
Variable write : string → bool → Element → WriteOutcome.

(** The directory [code_dir] as a map from entry names to contents; the
    result is the returned dictionary and the directory afterwards. *)
Definition update_library_version
    (code_dir : gmap string FileContent) (library_name new_version : string)
  : ToolResult string * gmap string FileContent :=
  match code_dir !! "pom.xml" with
  | None => (Error "pom.xml not found in the directory", code_dir)
  | Some (Unparsable e) => (Error (str e), code_dir)
  | Some (Xml doc) =>
      let root := getroot doc in
      match search root library_name
              (findall_descendants root (ns "dependency")) with
      | None =>
          (Error ("Library " +:+ library_name +:+ " not found in pom.xml"),
           code_dir)
      | Some (old_version, version) =>
          let root' := set_text root version (Some new_version) in
          match write "utf-8" true root' with
          | Written content =>
              (Success ("Updated " +:+ library_name +:+ " from "
                        +:+ Str.format_opt old_version
                        +:+ " to " +:+ new_version),
               <["pom.xml" := content]> code_dir)
          | WriteRaises e remains =>
              (Error (str e),
               match remains with
               | Some content => <["pom.xml" := content]> code_dir
               | None => code_dir
               end)
          end
      end
  end.
End WithStr.

End Editor.


(** ** check_compatibility: scanning and snippet assembly *)

Module Scanner.

(** A file of the tree, by what reading it gives: [read_ignore] is
    [open(p, 'r', encoding='utf-8', errors='ignore').read()] and
    [read_strict] is [open(p, 'r', encoding='utf-8').read()]; either may
    raise. *)
Record File : Type := MkFile {
  read_ignore : py string;
  read_strict : py string
}.

(** A directory: its files and its subdirectories, each list in the order
    [os.walk] reports them. *)
Inductive Dir : Type :=
| MkDir (files : list (string * File)) (dirs : list (string * Dir)).

Definition dir_files (d : Dir) : list (string * File) :=
  match d with MkDir fs _ => fs end.
Definition dir_dirs (d : Dir) : list (string * Dir) :=
  match d with MkDir _ ds => ds end.

(** [os.walk(code_dir)], top-down: a directory, then each subdirectory in
    turn.  The first component is the directory relative to [code_dir]. *)
Fixpoint walk (root : list string) (d : Dir)
  : list (list string * list (string * File)) :=
  match d with
  | MkDir fs ds =>
      (root, fs) ::
      (fix over (ds : list (string * Dir)) :=
         match ds with
         | [] => []
         | (name, sub) :: ds' => walk (root ++ [name]) sub ++ over ds'
         end) ds
  end.

(** [os.path.relpath(os.path.join(root, file), code_dir)] *)
Definition relpath (root : list string) (file : string) : string :=
  String.concat "/" (root ++ [file]).

Definition extensions : list string :=
  [".java"; ".xml"; ".properties"; ".yml"; ".yaml"].

Definition spring_imports : list string :=
  ["org.springframework"; "springframework"; "@Controller";
   "@RestController"; "@Service"; "@Repository"; "@Component";
   "@RequestMapping"].

Definition imports_to_check (library_name : string) : list string :=
  if Str.contains "spring" (Str.lower library_name) then spring_imports else [].

(** Which branch of the relevance test sets [is_relevant]. *)
Inductive MatchReason : Type :=
| DirectNameMatch
| ImportMatch
| DependencyDeclarationMatch.

(** The [if] / [elif] / [elif] chain: [None] when [is_relevant] stays
    false. *)
Definition relevance (library_name file content : string) : option MatchReason :=
  if Str.contains library_name content then Some DirectNameMatch
  else
    match imports_to_check library_name with
    | (_ :: _) as imports =>
        if existsb (fun import_str => Str.contains import_str content) imports
        then Some ImportMatch
        else None
    | [] =>
        if Str.endswith file ".xml"
           && Str.contains "dependency" content
           && (Str.contains "spring" (Str.lower content)
               || Str.contains (Str.lower library_name) (Str.lower content))
        then Some DependencyDeclarationMatch
        else None
    end.

Definition truncation_suffix : string := "... (truncated)".

Definition truncate (content : string) : string :=
  if 2000 <? String.length content
  then Str.slice_to 2000 content +:+ truncation_suffix
  else content.

(** The body of the inner loop for one file: the pair appended to
    [code_snippets], tagged with the reason, if any. *)
Definition visit (library_name : string) (root : list string)
    (entry : string * File) : option (MatchReason * (string * string)) :=
  let (file, f) := entry in
  if Str.endswith_any file extensions then
    match read_ignore f with
    | inr content =>
        match relevance library_name file content with
        | Some reason => Some (reason, (relpath root file, truncate content))
        | None => None
        end
    | inl _ => None
    end
  else None.

(** The two nested [for] loops. *)
Definition scan (code_dir : Dir) (library_name : string)
  : list (MatchReason * (string * string)) :=
  flat_map (fun '(root, fs) => omap (visit library_name root) fs)
           (walk [] code_dir).

(** The relative paths of all files, in the order the walk meets them. *)
Definition discovered (code_dir : Dir) : list string :=
  flat_map (fun '(root, fs) => map (fun entry => relpath root entry.1) fs)
           (walk [] code_dir).

Fixpoint lookup_name {A} (name : string) (l : list (string * A)) : option A :=
  match l with
  | [] => None
  | (n, a) :: l' => if String.eqb n name then Some a else lookup_name name l'
  end.

(** [os.path.exists(os.path.join(code_dir, "pom.xml"))] *)
Definition pom_exists (code_dir : Dir) : bool :=
  bool_decide (is_Some (lookup_name "pom.xml" (dir_files code_dir)))
  || bool_decide (is_Some (lookup_name "pom.xml" (dir_dirs code_dir))).

(** [open(pom_path, 'r', encoding='utf-8').read()] *)
Definition read_pom (code_dir : Dir) : py string :=
  match lookup_name "pom.xml" (dir_files code_dir) with
  | Some f => read_strict f
  | None => raise (Raised "Is a directory")
  end.

(** [code_snippets] as it stands when the prompt is prepared. *)
Definition code_snippets (code_dir : Dir) (library_name : string)
  : list (string * string) :=
  let found := (scan code_dir library_name).*2 in
  match found with
  | [] =>
      if pom_exists code_dir then
        match read_pom code_dir with
        | inr pom_content => [("pom.xml", pom_content)]
        | inl _ => []
        end
      else []
  | _ :: _ => found
  end.

Definition render (entry : string * string) : string :=
  let (file, snippet) := entry in
  "--- " +:+ file +:+ " ---
" +:+ snippet +:+ "

".

(** [for file, snippet in code_snippets[:5]: snippets_text += ...] *)
Definition snippets_text (code_snippets : list (string * string)) : string :=
  fold_left (fun acc entry => acc +:+ render entry) (take 5 code_snippets) "".

Definition prompt (library_name old_version new_version snippets : string)
  : string :=
  "
    I'm upgrading " +:+ library_name +:+ " from version " +:+ old_version
  +:+ " to " +:+ new_version +:+ ".
    
    Please analyze if the new version is compatible with our current code.
    Focus on deprecated functions/methods, API changes, deprecated features, and breaking code changes.
    
    Here are code snippets that use this library:
    
    " +:+ snippets +:+ "
    
    Provide a detailed compatibility assessment and suggestions for any necessary code changes.
    ".

End Scanner.

(** ** check_compatibility: the HTTP call *)

Module Client.

(** A decoded JSON value; an object holds the entries of the resulting
    dictionary. *)
Inductive Json : Type :=
| JNull
| JBool (b : bool)
| JInt (n : Z)
| JFloat (literal : string)
| JString (s : string)
| JArray (items : list Json)
| JObject (entries : list (string * Json)).

(** [type(v)] *)
Definition type_of (v : Json) : PyType :=
  match v with
  | JNull => NoneType
  | JBool _ => PyBool
  | JInt _ => PyInt
  | JFloat _ => PyFloat
  | JString _ => PyStr
  | JArray _ => PyList
  | JObject _ => PyDict
  end.

(** [v[key]] for a string key. *)
Definition getitem_str (v : Json) (key : string) : py Json :=
  match v with
  | JObject entries =>
      match Scanner.lookup_name key entries with
      | Some x => mret x
      | None => raise (KeyError key)
      end
  | _ => raise (TypeError (type_of v) PyStr)
  end.

(** [v[i]] for an index [i >= 0]. *)
Definition getitem_int (v : Json) (i : nat) : py Json :=
  match v with
  | JArray items =>
      match items !! i with
      | Some x => mret x
      | None => raise IndexError
      end
  | JString s =>
      match String.get i s with
      | Some c => mret (JString (String c EmptyString))
      | None => raise IndexError
      end
  | JObject _ => raise (KeyError "0")
  | _ => raise (TypeError (type_of v) PyInt)
  end.

(** The body is an object whose [content] is a list whose first block is an
    object with a [text] entry holding [analysis]. *)
Definition first_block_text (body analysis : Json) : Prop :=
  ∃ entries block rest fields,
    body = JObject entries ∧
    Scanner.lookup_name "content" entries = Some (JArray (block :: rest)) ∧
    block = JObject fields ∧
    Scanner.lookup_name "text" fields = Some analysis.

(** [body["content"][0]["text"]] *)
Definition first_text (body : Json) : py Json :=
  content ← getitem_str body "content";
  block ← getitem_int content 0;
  getitem_str block "text".

Record Response : Type := MkResponse {
  status_code : nat;
  text : string;
  json : py Json
}.

(** What happens inside the [try] block, as far as the environment decides
    it: writing the log raises, [requests.post] raises, or a response
    arrives. *)
Inductive Outcome : Type :=
| LogRaises (e : exn)
| PostRaises (e : exn)
| Responds (r : Response).

Section WithStr.
(** [str(e)] *)
Variable str : exn → string.

(** The [try] / [except] around the call. *)
Definition call (o : Outcome) : py (ToolResult Json) :=
  try_except
    (match o with
     | LogRaises e => raise e
     | PostRaises e => raise e
     | Responds response =>
         if status_code response =? 200 then
           body ← json response;
           analysis ← first_text body;
           mret (Success analysis)
         else
           mret (Error ("Failed to get response from Claude API: "
                        +:+ text response))
     end)
    (fun e => mret (Error ("Error communicating with Claude API: " +:+ str e))).

(** The environment answers the prompt it is sent. *)
Variable post : string → Outcome.

Definition check_compatibility (code_dir : Scanner.Dir)
    (library_name old_version new_version : string) : py (ToolResult Json) :=
  let code_snippets := Scanner.code_snippets code_dir library_name in
  let snippets_text := Scanner.snippets_text code_snippets in
  call (post (Scanner.prompt library_name old_version new_version snippets_text)).

End WithStr.

End Client.


(** ** The greeting and directory resources *)

Module Resources.

(** [get_greeting]: the f-string [Hello, {name}!]. *)
Definition get_greeting (name : string) : string :=
  "Hello, " +:+ name +:+ "!".


End Resources.

(** ** Sample inputs *)

Module Examples.
Import ET Editor.

(** One rendering of [str(e)]. *)
Definition str (e : exn) : string :=
  match e with
  | KeyError key => "'" +:+ key +:+ "'"
  | IndexError => "list index out of range"
  | TypeError NoneType _ => "'NoneType' object is not subscriptable"
  | TypeError PyBool _ => "'bool' object is not subscriptable"
  | TypeError PyInt _ => "'int' object is not subscriptable"
  | TypeError PyFloat _ => "'float' object is not subscriptable"
  | TypeError PyStr _ => "string indices must be integers"
  | TypeError PyList _ => "list indices must be integers or slices, not str"
  | TypeError PyDict _ => "unhashable type"
  | Raised message => message
  end.

Definition leaf (t : string) (x : string) : Element :=
  Elem t [] (Some x) None [].

Definition node (t : string) (cs : list Element) : Element :=
  Elem t [] None None cs.

(** [<project><dependencies>] with the given entries, in the POM
    namespace. *)
Definition project (entries : list Element) : Element :=
  node (ns "project") [node (ns "dependencies") entries].

Definition entry (artifact version : string) : Element :=
  node (ns "dependency")
       [leaf (ns "artifactId") artifact; leaf (ns "version") version].

Definition entry_without_version (artifact : string) : Element :=
  node (ns "dependency") [leaf (ns "artifactId") artifact].

(** The manifest of the specification's example. *)
Definition spring_pom : Element :=
  project [entry "spring-core" "5.3.0"; entry "spring-web" "5.3.0"].

(** The same identifier twice, the first time without a version. *)
Definition managed_pom : Element :=
  project [entry_without_version "spring-core"; entry "spring-core" "5.3.0"].

(** A manifest whose elements carry no namespace. *)
Definition plain_pom : Element :=
  node "project"
       [node "dependencies"
             [node "dependency"
                   [leaf "artifactId" "spring-core"; leaf "version" "5.3.0"]]].

Definition in_dir (d : Document) : gmap string FileContent :=
  {[ "pom.xml" := Xml d ]}.

(** A manifest stored in Latin-1 without an XML declaration. *)
Definition latin1_doc : Document := Doc false "ISO-8859-1" spring_pom.

(** A writer that stores what it is asked to, so that the file re-reads as
    the tree it was given: the most a caller can hope for. *)
Definition ideal_write (encoding : string) (xml_declaration : bool)
    (root : Element) : WriteOutcome :=
  Written (Xml (Doc xml_declaration encoding root)).

(** The nesting depth of a tree. *)
Fixpoint depth (e : Element) : nat :=
  match e with
  | Elem _ _ _ _ cs =>
      S ((fix over (cs : list Element) : nat :=
            match cs with
            | [] => 0
            | c :: cs' => Nat.max (depth c) (over cs')
            end) cs)
  end.

(** A writer that serialises by recursion on the tree: for a tree nested
    deeper than [limit] it raises when the file is already opened and partly
    written, and what is left of the file no longer parses. *)
Definition recursion_limited_write (limit : nat) (encoding : string)
    (xml_declaration : bool) (root : Element) : WriteOutcome :=
  if limit <? depth root
  then WriteRaises (Raised "maximum recursion depth exceeded")
                   (Some (Unparsable (Raised "unclosed token")))
  else ideal_write encoding xml_declaration root.

(** [e] wrapped in [n] nested elements. *)
Fixpoint nest (n : nat) (e : Element) : Element :=
  match n with
  | 0 => e
  | S n' => node (ns "modules") [nest n' e]
  end.

(** A well-formed manifest with an entry for [spring-core] and, beside it,
    elements nested 3000 deep. *)
Definition deep_pom : Element :=
  node (ns "project")
       [node (ns "dependencies") [entry "spring-core" "5.3.0"];
        nest 3000 (leaf (ns "module") "core")].

End Examples.


Module ScanExamples.
Import Scanner.

(** A file that reads the same with and without [errors='ignore']. *)
Definition text_file (content : string) : File :=
  MkFile (inr content) (inr content).

(** A file with bytes that are not UTF-8: reading it with
    [errors='ignore'] gives [lenient], reading it strictly raises. *)
Definition undecodable (lenient : string) : File :=
  MkFile (inr lenient)
         (inl (Raised "'utf-8' codec can't decode byte 0xe9: invalid continuation byte")).

(** A descriptor that declares a Spring dependency without the literal
    library name and without any of the import markers. *)
Definition descriptor : string := "<dependency>SPRING-core</dependency>".

Definition descriptor_dir : Dir :=
  MkDir [("pom.xml", text_file descriptor)] [].

(** A manifest of 3000 characters that no heuristic selects. *)
Definition long_pom_dir : Dir :=
  MkDir [("pom.xml", text_file (Str.replicate 3000 "a"))] [].

(** A manifest that no heuristic selects and that cannot be decoded. *)
Definition broken_pom_dir : Dir :=
  MkDir [("pom.xml", undecodable "<project/>")] [].

(** Seven files that all hold the literal library name. *)
Definition seven_dir : Dir :=
  MkDir [("a.java", text_file "spring-core 1");
         ("b.java", text_file "spring-core 2");
         ("c.java", text_file "spring-core 3");
         ("d.java", text_file "spring-core 4");
         ("e.java", text_file "spring-core 5");
         ("f.java", text_file "spring-core 6");
         ("g.java", text_file "spring-core 7")] [].

(** A file matched by an import marker only, met before a file that holds
    the literal library name. *)
Definition mixed_dir : Dir :=
  MkDir [("A.java", text_file "import org.springframework.X;");
         ("B.java", text_file "uses spring-core")] [].

(** An environment in which the service answers every prompt with one text
    block. *)
Definition answering (prompt : string) : Client.Outcome :=
  Client.Responds
    (Client.MkResponse 200 "{}"
       (inr (Client.JObject
               [("content",
                 Client.JArray
                   [Client.JObject [("type", Client.JString "text");
                                    ("text", Client.JString "compatible")]])]))).

End ScanExamples.

(** * Properties *)

(** ** ElementTree *)

Section ElementTreeFacts.
Import ET.

Lemma iter_unfold e : iter e = [] :: iter_forest (children e) 0.
Proof.
  by destruct e.
Qed.

Lemma node_at_app root p q :
  node_at root (p ++ q) = node_at root p ≫= λ e, node_at e q.
Proof.
  revert root; induction p as [|i p IH]; intros root; simpl; [done|].
  destruct (children root !! i); simpl; [apply IH | done].
Qed.

Lemma node_at_snoc root p i e :
  node_at root p = Some e → node_at root (p ++ [i]) = children e !! i.
Proof.
  intros H. rewrite node_at_app, H. simpl. by destruct (children e !! i).
Qed.

Lemma iter_forest_elem cs i k c p :
  cs !! k = Some c → p ∈ iter c → (i + k) :: p ∈ iter_forest cs i.
Proof.
  revert i k; induction cs as [|c' cs IH]; intros i k Hk Hp; [done|].
  simpl. apply elem_of_app. destruct k as [|k]; simpl in Hk.
  - left. injection Hk as ->. rewrite Nat.add_0_r.
    apply list_elem_of_fmap. eauto.
  - right. replace (i + S k) with (S i + k) by lia. by apply IH.
Qed.

(** Every element of the tree is reached by [iter]. *)
Lemma iter_complete root p e : node_at root p = Some e → p ∈ iter root.
Proof.
  revert root; induction p as [|i p IH]; intros root H; rewrite iter_unfold.
  - apply list_elem_of_here.
  - apply list_elem_of_further. simpl in H.
    destruct (children root !! i) as [c|] eqn:Hc; [|done].
    apply (iter_forest_elem _ 0 i c); eauto.
Qed.

Lemma elements_complete root p e : node_at root p = Some e → e ∈ elements root.
Proof.
  intros H. unfold elements. apply list_elem_of_omap.
  exists p. split; [by eapply iter_complete | done].
Qed.

Lemma find_from_Some t cs i j :
  find_from t cs i = Some j →
  ∃ c, i ≤ j ∧ cs !! (j - i) = Some c ∧ tag c = t.
Proof.
  revert i; induction cs as [|c cs IH]; intros i H; simpl in H; [done|].
  destruct (String.eqb (tag c) t) eqn:Ht.
  - injection H as <-. exists c. rewrite Nat.sub_diag.
    apply String.eqb_eq in Ht. done.
  - destruct (IH _ H) as (c' & Hle & Hc' & Htag). exists c'.
    split; [lia|]. split; [|done].
    replace (j - i) with (S (j - S i)) by lia. done.
Qed.

Lemma find_Some e t j :
  find e t = Some j → ∃ c, children e !! j = Some c ∧ tag c = t.
Proof.
  intros H. apply find_from_Some in H as (c & _ & Hc & Ht).
  rewrite Nat.sub_0_r in Hc. eauto.
Qed.

Lemma set_text_here root p v e :
  node_at root p = Some e →
  node_at (set_text root p v) p
  = Some (Elem (tag e) (attrib e) v (tail e) (children e)).
Proof.
  revert root; induction p as [|i p IH]; intros root H; simpl in *.
  - by injection H as ->.
  - destruct (children root !! i) as [c|] eqn:Hc; [|done]. simpl.
    rewrite list_lookup_insert_eq by (by eapply lookup_lt_Some). by apply IH.
Qed.

Lemma set_text_elsewhere root p v q :
  q ≠ p → label <$> node_at (set_text root p v) q = label <$> node_at root q.
Proof.
  revert root q; induction p as [|i p IH]; intros root q Hq.
  - destruct q as [|j q]; [done|]. done.
  - simpl. destruct (children root !! i) as [c|] eqn:Hc; [|done].
    destruct q as [|j q]; simpl.
    + unfold label; simpl. by rewrite length_insert.
    + destruct (decide (j = i)) as [->|Hne].
      * rewrite list_lookup_insert_eq by (by eapply lookup_lt_Some).
        rewrite Hc. apply IH. congruence.
      * by rewrite list_lookup_insert_ne.
Qed.

Lemma set_text_same_except root p v e :
  node_at root p = Some e → same_except_text_at root (set_text root p v) p.
Proof.
  intros H. split.
  - intros q Hq. by apply set_text_elsewhere.
  - exists e, (Elem (tag e) (attrib e) v (tail e) (children e)).
    split; [done|]. split; [by apply set_text_here | done].
Qed.

End ElementTreeFacts.

(** ** update_library_version *)

Section EditorFacts.
Import ET Editor.
Variable str : exn → string.
Variable write : string → bool → Element → WriteOutcome.

Lemma search_none root library_name deps :
  (∀ d, d ∈ deps → accepts root library_name d = false) →
  search root library_name deps = None.
Proof.
  induction deps as [|d deps IH]; intros H; simpl; [done|].
  assert (Hd := H d (list_elem_of_here _ _)).
  assert (Hrest : search root library_name deps = None).
  { apply IH. intros q Hq. apply H. by apply list_elem_of_further. }
  unfold accepts in Hd. destruct (node_at root d) as [dep|]; [|done].
  destruct (artifact_is dep library_name); [|done]. simpl in Hd.
  destruct (find dep (ns "version")) as [j|] eqn:Hj; [|done].
  apply bool_decide_eq_false in Hd. by destruct Hd.
Qed.

Lemma search_first root library_name l1 d l2 :
  (∀ q, q ∈ l1 → accepts root library_name q = false) →
  accepts root library_name d = true →
  ∃ dependency j version,
    node_at root d = Some dependency ∧
    artifact_is dependency library_name = true ∧
    find dependency (ns "version") = Some j ∧
    children dependency !! j = Some version ∧
    tag version = ns "version" ∧
    search root library_name (l1 ++ d :: l2) = Some (text version, d ++ [j]).
Proof.
  intros Hl1 Hd. unfold accepts in Hd.
  destruct (node_at root d) as [dep|] eqn:Hdep; [|done].
  apply andb_true_iff in Hd as [Ha Hv]. apply bool_decide_eq_true in Hv as [j Hj].
  destruct (find_Some _ _ _ Hj) as (version & Hc & Ht).
  exists dep, j, version. repeat (split; [done|]).
  induction l1 as [|q l1 IH]; simpl.
  - by rewrite Hdep, Ha, Hj, Hc.
  - assert (Hq := Hl1 q (list_elem_of_here _ _)).
    assert (Hrest := IH (λ q' Hq', Hl1 q' (list_elem_of_further _ _ _ Hq'))).
    unfold accepts in Hq. destruct (node_at root q) as [dq|]; [|done].
    destruct (artifact_is dq library_name); [|done]. simpl in Hq.
    destruct (find dq (ns "version")) as [k|] eqn:Hk; [|done].
    apply bool_decide_eq_false in Hq. by destruct Hq.
Qed.

Lemma first_accepted (f : path → bool) (l : list path) d :
  d ∈ l → f d = true →
  ∃ l1 d' l2, l = l1 ++ d' :: l2 ∧ (∀ q, q ∈ l1 → f q = false) ∧ f d' = true.
Proof.
  induction l as [|x l IH]; intros Hin Hd; [by apply elem_of_nil in Hin|].
  destruct (f x) eqn:Hx.
  - exists [], x, l. split; [done|]. split; [|done].
    intros q Hq. by apply elem_of_nil in Hq.
  - apply elem_of_cons in Hin as [->|Hin]; [congruence|].
    destruct (IH Hin Hd) as (l1 & d' & l2 & -> & Hl1 & Hd').
    exists (x :: l1), d', l2. split; [done|]. split; [|done].
    intros q Hq. apply elem_of_cons in Hq as [->|Hq]; [done | by apply Hl1].
Qed.

Lemma findall_descendants_elem root t d e :
  d ≠ [] → node_at root d = Some e → tag e = t →
  d ∈ findall_descendants root t.
Proof.
  intros Hne Hd Ht. unfold findall_descendants.
  apply list_elem_of_In, filter_In. split.
  - apply list_elem_of_In. by eapply iter_complete.
  - unfold has_tag. rewrite Hd, Ht, String.eqb_refl. simpl.
    by rewrite bool_decide_eq_false_2.
Qed.

(** An accepted dependency has an [artifactId] child, in the POM
    namespace, whose text is the requested name. *)
Lemma artifact_is_elem root d dependency library_name :
  node_at root d = Some dependency →
  artifact_is dependency library_name = true →
  ∃ i a, node_at root (d ++ [i]) = Some a ∧
         tag a = ns "artifactId" ∧ text a = Some library_name.
Proof.
  intros Hd Ha. unfold artifact_is in Ha.
  destruct (find dependency (ns "artifactId")) as [i|] eqn:Hi; [|done].
  destruct (find_Some _ _ _ Hi) as (a & Hc & Ht). rewrite Hc in Ha.
  apply bool_decide_eq_true in Ha. exists i, a.
  by rewrite (node_at_snoc _ _ _ _ Hd).
Qed.

Lemma findall_descendants_tag root t d :
  d ∈ findall_descendants root t →
  ∃ e, node_at root d = Some e ∧ tag e = t.
Proof.
  unfold findall_descendants. intros H.
  apply list_elem_of_In, filter_In in H as [_ H].
  apply andb_true_iff in H as [H _]. unfold has_tag in H.
  destruct (node_at root d) as [e|]; [|done].
  apply String.eqb_eq in H. eauto.
Qed.

Lemma update_not_found code_dir doc library_name new_version :
  code_dir !! "pom.xml" = Some (Xml doc) →
  (∀ d, d ∈ findall_descendants (getroot doc) (ns "dependency") →
        accepts (getroot doc) library_name d = false) →
  update_library_version str write code_dir library_name new_version
  = (Error ("Library " +:+ library_name +:+ " not found in pom.xml"), code_dir).
Proof.
  intros Hpom Hnone. unfold update_library_version. rewrite Hpom.
  by rewrite (search_none _ _ _ Hnone).
Qed.

(** When the loop stops at [d], the writer is called once, with UTF-8, a
    declaration and the tree in which only the version text of [d] is
    replaced; its outcome decides the result and the file. *)
Lemma update_found code_dir doc library_name new_version l1 d l2 :
  code_dir !! "pom.xml" = Some (Xml doc) →
  findall_descendants (getroot doc) (ns "dependency") = l1 ++ d :: l2 →
  (∀ q, q ∈ l1 → accepts (getroot doc) library_name q = false) →
  accepts (getroot doc) library_name d = true →
  ∃ dependency j version,
    node_at (getroot doc) d = Some dependency ∧
    artifact_is dependency library_name = true ∧
    find dependency (ns "version") = Some j ∧
    children dependency !! j = Some version ∧
    tag version = ns "version" ∧
    rewritten (getroot doc) library_name new_version
    = Some (set_text (getroot doc) (d ++ [j]) (Some new_version)) ∧
    update_library_version str write code_dir library_name new_version
    = match write "utf-8" true
              (set_text (getroot doc) (d ++ [j]) (Some new_version)) with
      | Written content =>
          (Success ("Updated " +:+ library_name +:+ " from "
                    +:+ Str.format_opt (text version)
                    +:+ " to " +:+ new_version),
           <["pom.xml" := content]> code_dir)
      | WriteRaises e remains =>
          (Error (str e),
           match remains with
           | Some content => <["pom.xml" := content]> code_dir
           | None => code_dir
           end)
      end.
Proof.
  intros Hpom Hall Hl1 Hd.
  destruct (search_first _ _ l1 d l2 Hl1 Hd)
    as (dep & j & version & H1 & H2 & H3 & H4 & H5 & Hs).
  exists dep, j, version. repeat (split; [done|]). split.
  - unfold rewritten. by rewrite Hall, Hs.
  - unfold update_library_version. by rewrite Hpom, Hall, Hs.
Qed.

End EditorFacts.

(** ** Claims on update_library_version *)

Section EditorClaims.
Import ET Editor.

(** C1, as stated, fails.  In [managed_pom] the first dependency whose
    artifact identifier is [spring-core] has no version child; the call does
    not return an error: the loop goes on to the next entry with that
    identifier and rewrites its version. *)
Lemma update_skips_entry_without_version :
  let root := Examples.managed_pom in
  let first_by_identifier :=
    List.find (λ d, match node_at root d with
                    | Some e => artifact_is e "spring-core"
                    | None => false
                    end)
              (findall_descendants root (ns "dependency")) in
  first_by_identifier = Some [0; 0] ∧
  (node_at root [0; 0] ≫= λ e, find e (ns "version")) = None ∧
  update_library_version Examples.str Examples.ideal_write
    (Examples.in_dir (Doc true "utf-8" root)) "spring-core" "5.3.20"
  = (Success "Updated spring-core from 5.3.0 to 5.3.20",
     Examples.in_dir
       (Doc true "utf-8"
          (Examples.project [Examples.entry_without_version "spring-core";
                             Examples.entry "spring-core" "5.3.20"]))).
Proof. vm_compute. done. Qed.

(** C1 (amended): the update affects only the first dependency entry, in
    document order, whose artifact identifier equals the requested name and
    which has a version child: the tree handed to the writer differs from
    the tree read only in the version text of that entry, so entries before
    it, among them entries with that identifier and no version child, and
    entries after it are left as they are.  If the write returns, the
    result is Success and the file holds what the writer stored; if it
    raises, the result is the error with the exception's message and the
    file is what the failed write left.  When no entry has both, the result
    is the not-found error and the directory is unchanged, whatever the
    writer would do. *)
Theorem update_first_versioned_match
    (str : exn → string) (write : string → bool → Element → WriteOutcome)
    (code_dir : gmap string FileContent) (doc : Document)
    (library_name new_version : string) :
  code_dir !! "pom.xml" = Some (Xml doc) →
  ((∀ d, d ∈ findall_descendants (getroot doc) (ns "dependency") →
         accepts (getroot doc) library_name d = false) →
   update_library_version str write code_dir library_name new_version
   = (Error ("Library " +:+ library_name +:+ " not found in pom.xml"),
      code_dir))
  ∧
  (∀ l1 d l2,
     findall_descendants (getroot doc) (ns "dependency") = l1 ++ d :: l2 →
     (∀ q, q ∈ l1 → accepts (getroot doc) library_name q = false) →
     accepts (getroot doc) library_name d = true →
     ∃ dependency j version root',
       node_at (getroot doc) d = Some dependency ∧
       find dependency (ns "version") = Some j ∧
       children dependency !! j = Some version ∧
       same_except_text_at (getroot doc) root' (d ++ [j]) ∧
       text <$> node_at root' (d ++ [j]) = Some (Some new_version) ∧
       (∀ content,
          write "utf-8" true root' = Written content →
          update_library_version str write code_dir library_name new_version
          = (Success ("Updated " +:+ library_name +:+ " from "
                      +:+ Str.format_opt (text version)
                      +:+ " to " +:+ new_version),
             <["pom.xml" := content]> code_dir)) ∧
       (∀ e remains,
          write "utf-8" true root' = WriteRaises e remains →
          update_library_version str write code_dir library_name new_version
          = (Error (str e),
             match remains with
             | Some content => <["pom.xml" := content]> code_dir
             | None => code_dir
             end))).
Proof.
  intros Hpom. split.
  - by apply (update_not_found str write _ doc).
  - intros l1 d l2 Hall Hl1 Hd.
    destruct (update_found str write _ _ _ new_version _ _ _ Hpom Hall Hl1 Hd)
      as (dep & j & version & H1 & _ & H3 & H4 & _ & _ & Hup).
    exists dep, j, version,
      (set_text (getroot doc) (d ++ [j]) (Some new_version)).
    repeat (split; [done|]).
    assert (Hv : node_at (getroot doc) (d ++ [j]) = Some version).
    { by rewrite (node_at_snoc _ _ _ _ H1). }
    split; [by eapply set_text_same_except|].
    split; [by rewrite (set_text_here _ _ _ _ Hv)|].
    split.
    + intros content Hw. by rewrite Hup, Hw.
    + intros e remains Hw. by rewrite Hup, Hw.
Qed.

Lemma update_first_versioned_match_witness :
  ∃ dependency j version root',
    node_at Examples.managed_pom [0; 1] = Some dependency ∧
    find dependency (ns "version") = Some j ∧
    children dependency !! j = Some version ∧
    same_except_text_at Examples.managed_pom root' ([0; 1] ++ [j]) ∧
    text <$> node_at root' ([0; 1] ++ [j]) = Some (Some "5.3.20") ∧
    (∀ content,
       Examples.ideal_write "utf-8" true root' = Written content →
       update_library_version Examples.str Examples.ideal_write
         (Examples.in_dir (Doc true "UTF-8" Examples.managed_pom))
         "spring-core" "5.3.20"
       = (Success ("Updated " +:+ "spring-core" +:+ " from "
                   +:+ Str.format_opt (text version) +:+ " to " +:+ "5.3.20"),
          <["pom.xml" := content]>
            (Examples.in_dir (Doc true "UTF-8" Examples.managed_pom)))) ∧
    (∀ e remains,
       Examples.ideal_write "utf-8" true root' = WriteRaises e remains →
       update_library_version Examples.str Examples.ideal_write
         (Examples.in_dir (Doc true "UTF-8" Examples.managed_pom))
         "spring-core" "5.3.20"
       = (Error (Examples.str e),
          match remains with
          | Some content =>
              <["pom.xml" := content]>
                (Examples.in_dir (Doc true "UTF-8" Examples.managed_pom))
          | None => Examples.in_dir (Doc true "UTF-8" Examples.managed_pom)
          end)).
Proof.
  apply (proj2 (update_first_versioned_match Examples.str Examples.ideal_write
                  (Examples.in_dir (Doc true "UTF-8" Examples.managed_pom))
                  (Doc true "UTF-8" Examples.managed_pom)
                  "spring-core" "5.3.20" eq_refl)
               [[0; 0]] [0; 1] []).
  - reflexivity.
  - intros q Hq. apply list_elem_of_singleton in Hq. subst q. reflexivity.
  - reflexivity.
Defined.

(** C4, as stated, fails.  [latin1_doc] is stored in Latin-1 and has no XML
    declaration.  The call asks the writer for UTF-8 and a declaration, so
    even with a writer that stores exactly what it is asked to, the file
    afterwards is UTF-8 and starts with a declaration: the version value is
    not the only change. *)
Lemma update_rewrites_encoding_and_declaration :
  let before := Examples.latin1_doc in
  let result :=
    update_library_version Examples.str Examples.ideal_write
                           (Examples.in_dir before) "spring-core" "5.3.20" in
  result.1 = Success "Updated spring-core from 5.3.0 to 5.3.20" ∧
  ∃ after, result.2 !! "pom.xml" = Some (Xml after) ∧
           encoding after ≠ encoding before ∧
           xml_declaration after ≠ xml_declaration before.
Proof.
  split; [by vm_compute|].
  eexists. split; [by vm_compute|]. by vm_compute.
Qed.

(** C4 (amended): when the manifest has an entry with the target artifact
    identifier and a version child, the loop stops at the first such entry
    in document order, a [dependency] element of the POM namespace whose
    artifact identifier is the target, and the tree handed to the writer
    differs from the tree read only in the text of that entry's version
    child, which is the new version.  The writer is asked for UTF-8 and an
    XML declaration, whatever the file had.  If the write returns, the
    result is Success, the returned old version is the text that version
    element held, the file holds what the writer stored and every other
    entry of the directory is untouched; if it raises, the result is the
    error with the exception's message and the file is what the failed
    write left. *)
Theorem update_changes_one_version_text
    (str : exn → string) (write : string → bool → Element → WriteOutcome)
    (code_dir : gmap string FileContent) (doc : Document)
    (library_name new_version : string) :
  code_dir !! "pom.xml" = Some (Xml doc) →
  (∃ d e, d ≠ [] ∧ node_at (getroot doc) d = Some e ∧
          is_versioned_entry library_name e = true) →
  ∃ l1 d l2 dependency j version root',
    findall_descendants (getroot doc) (ns "dependency") = l1 ++ d :: l2 ∧
    (∀ q, q ∈ l1 → accepts (getroot doc) library_name q = false) ∧
    node_at (getroot doc) d = Some dependency ∧
    tag dependency = ns "dependency" ∧
    artifact_is dependency library_name = true ∧
    find dependency (ns "version") = Some j ∧
    children dependency !! j = Some version ∧
    tag version = ns "version" ∧
    same_except_text_at (getroot doc) root' (d ++ [j]) ∧
    text <$> node_at root' (d ++ [j]) = Some (Some new_version) ∧
    (∀ content,
       write "utf-8" true root' = Written content →
       update_library_version str write code_dir library_name new_version
       = (Success ("Updated " +:+ library_name +:+ " from "
                   +:+ Str.format_opt (text version)
                   +:+ " to " +:+ new_version),
          <["pom.xml" := content]> code_dir)) ∧
    (∀ e remains,
       write "utf-8" true root' = WriteRaises e remains →
       update_library_version str write code_dir library_name new_version
       = (Error (str e),
          match remains with
          | Some content => <["pom.xml" := content]> code_dir
          | None => code_dir
          end)).
Proof.
  intros Hpom (d & e & Hne & Hd & He).
  unfold is_versioned_entry in He.
  apply andb_true_iff in He as [He Hv]. apply andb_true_iff in He as [Ht Ha].
  apply String.eqb_eq in Ht.
  assert (Hin := findall_descendants_elem _ _ _ _ Hne Hd Ht).
  assert (Hacc : accepts (getroot doc) library_name d = true).
  { unfold accepts. by rewrite Hd, Ha, Hv. }
  destruct (first_accepted _ _ _ Hin Hacc) as (l1 & d' & l2 & Hall & Hl1 & Hd').
  destruct (update_found str write _ _ _ new_version _ _ _ Hpom Hall Hl1 Hd')
    as (dep & j & version & H1 & H2 & H3 & H4 & H5 & _ & Hup).
  assert (Hver : node_at (getroot doc) (d' ++ [j]) = Some version).
  { by rewrite (node_at_snoc _ _ _ _ H1). }
  assert (Htag : tag dep = ns "dependency").
  { destruct (findall_descendants_tag (getroot doc) (ns "dependency") d')
      as (dep' & Hdep' & Htag).
    - rewrite Hall. apply elem_of_app. right. apply list_elem_of_here.
    - congruence. }
  exists l1, d', l2, dep, j, version,
    (set_text (getroot doc) (d' ++ [j]) (Some new_version)).
  repeat (split; [done|]).
  split; [by eapply set_text_same_except|].
  split; [by rewrite (set_text_here _ _ _ _ Hver)|].
  split.
  - intros content Hw. by rewrite Hup, Hw.
  - intros e' remains Hw. by rewrite Hup, Hw.
Qed.

Lemma update_changes_one_version_text_witness :
  ∃ l1 d l2 dependency j version root',
    findall_descendants Examples.spring_pom (ns "dependency")
    = l1 ++ d :: l2 ∧
    (∀ q, q ∈ l1 → accepts Examples.spring_pom "spring-web" q = false) ∧
    node_at Examples.spring_pom d = Some dependency ∧
    tag dependency = ns "dependency" ∧
    artifact_is dependency "spring-web" = true ∧
    find dependency (ns "version") = Some j ∧
    children dependency !! j = Some version ∧
    tag version = ns "version" ∧
    same_except_text_at Examples.spring_pom root' (d ++ [j]) ∧
    text <$> node_at root' (d ++ [j]) = Some (Some "6.0.0") ∧
    (∀ content,
       Examples.ideal_write "utf-8" true root' = Written content →
       update_library_version Examples.str Examples.ideal_write
         (Examples.in_dir Examples.latin1_doc) "spring-web" "6.0.0"
       = (Success ("Updated " +:+ "spring-web" +:+ " from "
                   +:+ Str.format_opt (text version) +:+ " to " +:+ "6.0.0"),
          <["pom.xml" := content]> (Examples.in_dir Examples.latin1_doc))) ∧
    (∀ e remains,
       Examples.ideal_write "utf-8" true root' = WriteRaises e remains →
       update_library_version Examples.str Examples.ideal_write
         (Examples.in_dir Examples.latin1_doc) "spring-web" "6.0.0"
       = (Error (Examples.str e),
          match remains with
          | Some content =>
              <["pom.xml" := content]> (Examples.in_dir Examples.latin1_doc)
          | None => Examples.in_dir Examples.latin1_doc
          end)).
Proof.
  apply (update_changes_one_version_text Examples.str Examples.ideal_write
           (Examples.in_dir Examples.latin1_doc) Examples.latin1_doc
           "spring-web" "6.0.0" eq_refl).
  exists [0; 1], (Examples.entry "spring-web" "5.3.0").
  split; [discriminate|]. split; reflexivity.
Defined.

(** C5, as stated, fails.  [deep_pom] is well-formed and has an entry for
    [spring-core]; the writer raises when it has already opened the file.
    The exception is caught, the result is an error, and the manifest is
    not what it was: an error path on which a write was performed. *)
Lemma update_failed_write_damages_manifest :
  let before := Examples.in_dir (Doc true "UTF-8" Examples.deep_pom) in
  let result :=
    update_library_version Examples.str
      (Examples.recursion_limited_write 1000) before "spring-core" "5.3.20" in
  result.1 = Error "maximum recursion depth exceeded" ∧
  before !! "pom.xml" = Some (Xml (Doc true "UTF-8" Examples.deep_pom)) ∧
  result.2 !! "pom.xml" = Some (Unparsable (Raised "unclosed token")).
Proof. by vm_compute. Qed.

(** C5 (amended): without a [pom.xml] the result is the not-found error and
    the directory is unchanged; with a manifest in which no [artifactId]
    element holds the requested name the result is an error and the
    directory is unchanged; on both paths the writer is not called,
    whatever it would do.  The only error that can come with a changed
    manifest is a write that raised after it had opened the file: every
    other error result leaves the directory as it was. *)
Theorem update_error_leaves_directory
    (str : exn → string) (write : string → bool → Element → WriteOutcome)
    (code_dir : gmap string FileContent)
    (library_name new_version : string) :
  (code_dir !! "pom.xml" = None →
   update_library_version str write code_dir library_name new_version
   = (Error "pom.xml not found in the directory", code_dir))
  ∧
  (∀ doc,
     code_dir !! "pom.xml" = Some (Xml doc) →
     Forall (λ e, ¬ (tag e = ns "artifactId" ∧ text e = Some library_name))
            (elements (getroot doc)) →
     update_library_version str write code_dir library_name new_version
     = (Error ("Library " +:+ library_name +:+ " not found in pom.xml"),
        code_dir))
  ∧
  (∀ message code_dir',
     update_library_version str write code_dir library_name new_version
     = (Error message, code_dir') →
     code_dir' = code_dir
     ∨ ∃ root' e content,
         write "utf-8" true root' = WriteRaises e (Some content) ∧
         message = str e ∧
         code_dir' = <["pom.xml" := content]> code_dir).
Proof.
  split; [|split].
  - intros Hpom. unfold update_library_version. by rewrite Hpom.
  - intros doc Hpom Hnone. apply (update_not_found str write _ doc); [done|].
    intros d Hd. destruct (accepts (getroot doc) library_name d) eqn:Hacc; [|done].
    exfalso. unfold accepts in Hacc.
    destruct (node_at (getroot doc) d) as [dep|] eqn:Hdep; [|done].
    apply andb_true_iff in Hacc as [Ha _].
    destruct (artifact_is_elem _ _ _ _ Hdep Ha) as (i & a & Hnode & Ht & Hx).
    apply elements_complete in Hnode.
    rewrite Forall_forall in Hnone. by apply (Hnone a).
  - intros message code_dir'. unfold update_library_version.
    destruct (code_dir !! "pom.xml") as [[e|doc]|];
      [intros [= _ <-]; by left| |intros [= _ <-]; by left].
    destruct (search _ _ _) as [[old version]|]; [|intros [= _ <-]; by left].
    cbv zeta.
    set (root' := set_text (getroot doc) version (Some new_version)).
    destruct (write "utf-8" true root') as [content|e [content|]] eqn:Hw.
    + done.
    + intros [= <- <-]. right. by exists root', e, content.
    + intros [= _ <-]. by left.
Qed.

Lemma update_error_leaves_directory_witness :
  update_library_version Examples.str Examples.ideal_write
    ∅ "spring-core" "5.3.20"
  = (Error "pom.xml not found in the directory", ∅)
  ∧
  update_library_version Examples.str (Examples.recursion_limited_write 0)
    (Examples.in_dir (Doc true "UTF-8" Examples.spring_pom)) "guava" "33.0"
  = (Error ("Library " +:+ "guava" +:+ " not found in pom.xml"),
     Examples.in_dir (Doc true "UTF-8" Examples.spring_pom)).
Proof.
  split.
  - apply (proj1 (update_error_leaves_directory
                    Examples.str Examples.ideal_write ∅ "spring-core" "5.3.20")).
    reflexivity.
  - apply (proj1 (proj2 (update_error_leaves_directory Examples.str
                           (Examples.recursion_limited_write 0)
                           (Examples.in_dir (Doc true "UTF-8" Examples.spring_pom))
                           "guava" "33.0"))
                 (Doc true "UTF-8" Examples.spring_pom)).
    + reflexivity.
    + vm_compute. repeat constructor; intros [_ H]; discriminate H.
Defined.

(** C10: entries are matched only under the POM namespace.  If no element
    of the manifest has the tag [dependency] in that namespace, or none has
    the tag [artifactId] in that namespace, the result is the not-found
    error and the directory is unchanged, whatever the texts of its
    elements. *)
Theorem update_requires_pom_namespace
    (str : exn → string) (write : string → bool → Element → WriteOutcome)
    (code_dir : gmap string FileContent) (doc : Document)
    (library_name new_version : string) :
  code_dir !! "pom.xml" = Some (Xml doc) →
  Forall (λ e, tag e ≠ ns "dependency") (elements (getroot doc))
  ∨ Forall (λ e, tag e ≠ ns "artifactId") (elements (getroot doc)) →
  update_library_version str write code_dir library_name new_version
  = (Error ("Library " +:+ library_name +:+ " not found in pom.xml"), code_dir).
Proof.
  intros Hpom Hns. apply (update_not_found str write _ doc); [done|].
  intros d Hd. destruct (accepts (getroot doc) library_name d) eqn:Hacc; [|done].
  exfalso. destruct Hns as [Hdep|Hart]; rewrite Forall_forall in *.
  - destruct (findall_descendants_tag _ _ _ Hd) as (e & He & Ht).
    apply elements_complete in He. by apply (Hdep e).
  - unfold accepts in Hacc.
    destruct (node_at (getroot doc) d) as [dep|] eqn:Hnode; [|done].
    apply andb_true_iff in Hacc as [Ha _].
    destruct (artifact_is_elem _ _ _ _ Hnode Ha) as (i & a & Hn & Ht & _).
    apply elements_complete in Hn. by apply (Hart a).
Qed.

Lemma update_requires_pom_namespace_witness :
  (node_at Examples.plain_pom [0; 0; 0] ≫= text) = Some "spring-core" ∧
  update_library_version Examples.str Examples.ideal_write
    (Examples.in_dir (Doc true "UTF-8" Examples.plain_pom))
    "spring-core" "5.3.20"
  = (Error ("Library " +:+ "spring-core" +:+ " not found in pom.xml"),
     Examples.in_dir (Doc true "UTF-8" Examples.plain_pom)).
Proof.
  split; [reflexivity|].
  apply (update_requires_pom_namespace Examples.str Examples.ideal_write
           (Examples.in_dir (Doc true "UTF-8" Examples.plain_pom))
           (Doc true "UTF-8" Examples.plain_pom) "spring-core" "5.3.20").
  - reflexivity.
  - left. vm_compute. repeat constructor; intros H; discriminate H.
Defined.

End EditorClaims.

(** ** Strings *)

Section StringFacts.

Lemma append_cons c (s t : string) : String c s +:+ t = String c (s +:+ t).
Proof. reflexivity. Qed.

Lemma append_nil_r (s : string) : s +:+ "" = s.
Proof. induction s as [|c s IH]; [done | by rewrite append_cons, IH]. Qed.

Lemma append_assoc (s1 s2 s3 : string) :
  (s1 +:+ s2) +:+ s3 = s1 +:+ (s2 +:+ s3).
Proof. induction s1 as [|c s1 IH]; [done | by rewrite !append_cons, IH]. Qed.

Lemma length_append (s1 s2 : string) :
  String.length (s1 +:+ s2) = String.length s1 + String.length s2.
Proof.
  induction s1 as [|c s1 IH]; [done|]. rewrite append_cons. simpl. by rewrite IH.
Qed.

Lemma length_slice_to n s : String.length (Str.slice_to n s) ≤ n.
Proof.
  unfold Str.slice_to. revert s; induction n as [|n IH]; intros s.
  - by destruct s.
  - destruct s as [|c s]; simpl; [lia|]. specialize (IH s). lia.
Qed.

Lemma contains_empty s : Str.contains "" s = true.
Proof. by destruct s. Qed.

Lemma contains_cons sub c s :
  Str.contains sub (String c s)
  = String.prefix sub (String c s) || Str.contains sub s.
Proof. reflexivity. Qed.

Lemma prefix_append_self (s t : string) : String.prefix s (s +:+ t) = true.
Proof.
  induction s as [|c s IH]; [by destruct t|].
  rewrite append_cons. simpl. by destruct (ascii_dec c c).
Qed.

Lemma prefix_append_l (sub s t : string) :
  String.prefix sub s = true → String.prefix sub (s +:+ t) = true.
Proof.
  revert s; induction sub as [|a sub IH]; intros s H.
  - by destruct (s +:+ t).
  - destruct s as [|b s]; [done|]. rewrite append_cons. simpl in *.
    destruct (ascii_dec a b); [by apply IH | done].
Qed.

Lemma contains_prefix (sub s : string) :
  String.prefix sub s = true → Str.contains sub s = true.
Proof.
  intros H. destruct s as [|c s].
  - change (String.prefix sub "" || false = true). by rewrite H.
  - by rewrite contains_cons, H.
Qed.

(** [sub in t] gives [sub in s + t]. *)
Lemma contains_append_r (sub s t : string) :
  Str.contains sub t = true → Str.contains sub (s +:+ t) = true.
Proof.
  intros H. induction s as [|c s IH]; [done|].
  rewrite append_cons, contains_cons, IH. apply orb_true_r.
Qed.

(** [sub in s] gives [sub in s + t]. *)
Lemma contains_append_l (sub s t : string) :
  Str.contains sub s = true → Str.contains sub (s +:+ t) = true.
Proof.
  induction s as [|c s IH]; intros H.
  - simpl in H. rewrite orb_false_r in H.
    destruct sub; [apply contains_empty | done].
  - rewrite contains_cons in H. rewrite append_cons, contains_cons.
    apply orb_true_iff in H as [H|H].
    + rewrite <- append_cons, (prefix_append_l _ _ _ H). done.
    + rewrite (IH H). apply orb_true_r.
Qed.

End StringFacts.

(** ** Scanning and snippet assembly *)

Section ScannerFacts.
Import Scanner.

Lemma length_truncate content :
  String.length (truncate content) ≤ 2000 + String.length truncation_suffix.
Proof.
  unfold truncate. destruct (2000 <? String.length content) eqn:H.
  - rewrite length_append. pose proof (length_slice_to 2000 content). lia.
  - apply Nat.ltb_ge in H. lia.
Qed.

Lemma visit_Some library_name root entry reason file content :
  visit library_name root entry = Some (reason, (file, content)) →
  ∃ raw, read_ignore entry.2 = inr raw ∧
         Str.endswith_any entry.1 extensions = true ∧
         relevance library_name entry.1 raw = Some reason ∧
         file = relpath root entry.1 ∧ content = truncate raw.
Proof.
  destruct entry as [name f]. unfold visit. cbn [fst snd].
  destruct (Str.endswith_any name extensions); [|done].
  destruct (read_ignore f) as [e|raw]; [done|].
  destruct (relevance library_name name raw) as [r|] eqn:Hr; [|done].
  intros [= <- <- <-]. by exists raw.
Qed.

Lemma scan_elem code_dir library_name x :
  x ∈ scan code_dir library_name ↔
  ∃ root fs entry, (root, fs) ∈ walk [] code_dir ∧ entry ∈ fs ∧
                   visit library_name root entry = Some x.
Proof.
  unfold scan. rewrite list_elem_of_In, in_flat_map. split.
  - intros ([root fs] & Hw & Hx). apply list_elem_of_In in Hw, Hx.
    apply list_elem_of_omap in Hx as (entry & He & Hv). by exists root, fs, entry.
  - intros (root & fs & entry & Hw & He & Hv). exists (root, fs).
    split; [by apply list_elem_of_In|]. apply list_elem_of_In.
    apply list_elem_of_omap. by exists entry.
Qed.

(** Every snippet the two loops append is at most 2000 characters plus the
    truncation suffix. *)
Lemma scan_content_bounded code_dir library_name reason file content :
  (reason, (file, content)) ∈ scan code_dir library_name →
  String.length content ≤ 2000 + String.length truncation_suffix.
Proof.
  intros H. apply scan_elem in H as (root & fs & entry & _ & _ & Hv).
  apply visit_Some in Hv as (raw & _ & _ & _ & _ & ->). apply length_truncate.
Qed.

(** With a non-empty list of import markers the third test is never
    made. *)
Lemma relevance_descriptor_needs_no_imports library_name file content :
  relevance library_name file content = Some DependencyDeclarationMatch →
  imports_to_check library_name = [].
Proof.
  unfold relevance. destruct (Str.contains library_name content); [done|].
  destruct (imports_to_check library_name) as [|i imports]; [done|].
  by destruct (existsb _ _).
Qed.

Lemma visit_paths_sublist library_name root fs :
  (omap (visit library_name root) fs).*2.*1
  `sublist_of` map (fun entry => relpath root entry.1) fs.
Proof.
  induction fs as [|entry fs IH]; simpl; [constructor|].
  destruct (visit library_name root entry) as [[reason [file content]]|] eqn:Hv.
  - apply visit_Some in Hv as (raw & _ & _ & _ & -> & _). simpl.
    by apply sublist_skip.
  - by apply sublist_cons.
Qed.

Lemma scan_paths_sublist code_dir library_name :
  (scan code_dir library_name).*2.*1 `sublist_of` discovered code_dir.
Proof.
  unfold scan, discovered.
  induction (walk [] code_dir) as [|[root fs] w IH]; simpl; [constructor|].
  rewrite !fmap_app. apply sublist_app; [apply visit_paths_sublist | done].
Qed.

Lemma snippets_text_fold (l : list (string * string)) acc :
  fold_left (fun acc entry => acc +:+ render entry) l acc
  = acc +:+ foldr (fun entry rest => render entry +:+ rest) "" l.
Proof.
  revert acc; induction l as [|x l IH]; intros acc; simpl.
  - by rewrite append_nil_r.
  - by rewrite IH, append_assoc.
Qed.

End ScannerFacts.

(** ** Claims on scanning and snippet assembly *)

Section ScannerClaims.
Import Scanner.

(** C2: the input on which the code departs from the claim.  For the
    library [spring-core] the list of import markers is not empty; the
    descriptor [pom.xml] holds neither the literal name nor any marker, and
    it does hold a dependency declaration together with [spring]; the
    [elif] on the marker list is taken, the descriptor test is never made,
    and the file is not selected. *)
Lemma relevance_skips_descriptor_test_for_spring :
  let library_name := "spring-core" in
  let content := ScanExamples.descriptor in
  Str.contains library_name content = false ∧
  imports_to_check library_name = spring_imports ∧
  existsb (fun import_str => Str.contains import_str content) spring_imports
  = false ∧
  Str.endswith "pom.xml" ".xml" = true ∧
  Str.contains "dependency" content = true ∧
  Str.contains "spring" (Str.lower content) = true ∧
  Str.contains (Str.lower library_name) (Str.lower content) = true ∧
  relevance library_name "pom.xml" content = None ∧
  scan ScanExamples.descriptor_dir library_name = [].
Proof. by vm_compute. Qed.

(** C3: the input on which the code departs from the claim.  No heuristic
    selects the manifest of 3000 characters, the fallback adds it, and its
    content is stored whole: 3000 characters, more than 2000 plus the
    suffix. *)
Lemma fallback_snippet_not_truncated :
  let snippets := code_snippets ScanExamples.long_pom_dir "guava" in
  scan ScanExamples.long_pom_dir "guava" = [] ∧
  snippets = [("pom.xml", Str.replicate 3000 "a")] ∧
  map (fun entry => String.length entry.2) snippets = [3000] ∧
  2000 + String.length truncation_suffix = 2015.
Proof. by vm_compute. Qed.

(** C7, as stated, fails.  In [broken_pom_dir] no heuristic selects a file
    and [pom.xml] exists, but reading it raises; the exception is caught
    and the candidate list stays empty. *)
Lemma fallback_skipped_when_pom_unreadable :
  scan ScanExamples.broken_pom_dir "guava" = [] ∧
  pom_exists ScanExamples.broken_pom_dir = true ∧
  code_snippets ScanExamples.broken_pom_dir "guava" = [].
Proof. by vm_compute. Qed.

(** C7 (amended): when the heuristics select no file, the root [pom.xml] is
    the sole candidate if it exists and can be read; if it does not exist,
    or reading it raises, the candidate list and the snippet block are
    empty, the prompt is built with the empty block, and the call still
    returns a result. *)
Theorem fallback_when_nothing_selected
    (str : exn → string) (post : string → Client.Outcome)
    (code_dir : Dir) (library_name old_version new_version : string) :
  scan code_dir library_name = [] →
  (∀ pom_content,
     pom_exists code_dir = true → read_pom code_dir = inr pom_content →
     code_snippets code_dir library_name = [("pom.xml", pom_content)])
  ∧
  (pom_exists code_dir = false ∨ (∃ e, read_pom code_dir = inl e) →
   code_snippets code_dir library_name = [] ∧
   snippets_text (code_snippets code_dir library_name) = "" ∧
   Client.check_compatibility str post code_dir library_name
                              old_version new_version
   = Client.call str (post (prompt library_name old_version new_version "")))
  ∧
  (∃ result,
     Client.check_compatibility str post code_dir library_name
                                old_version new_version
     = inr result).
Proof.
  intros Hscan. split; [|split].
  - intros pom_content Hex Hread. unfold code_snippets.
    by rewrite Hscan, Hex, Hread.
  - intros Hno.
    assert (Hempty : code_snippets code_dir library_name = []).
    { unfold code_snippets. rewrite Hscan. simpl.
      destruct Hno as [->|[e ->]]; [done|]. by destruct (pom_exists code_dir). }
    unfold Client.check_compatibility. by rewrite Hempty.
  - unfold Client.check_compatibility, Client.call, try_except.
    destruct (match post _ with
              | Client.LogRaises e => _
              | Client.PostRaises e' => _
              | Client.Responds r => _
              end); eauto.
Qed.

Lemma fallback_when_nothing_selected_witness :
  code_snippets ScanExamples.long_pom_dir "guava"
  = [("pom.xml", Str.replicate 3000 "a")]
  ∧
  code_snippets ScanExamples.broken_pom_dir "guava" = [].
Proof.
  split.
  - apply (proj1 (fallback_when_nothing_selected
                    Examples.str ScanExamples.answering
                    ScanExamples.long_pom_dir "guava" "32.0" "33.0" eq_refl));
      reflexivity.
  - apply (proj1 (proj2 (fallback_when_nothing_selected
                           Examples.str ScanExamples.answering
                           ScanExamples.broken_pom_dir "guava" "32.0" "33.0"
                           eq_refl))).
    right. eexists. reflexivity.
Defined.

(** C8: whatever the candidate list, the snippet block is made of the
    first five candidates and of nothing else, in their order: for each a
    header line with the path, the content, and a blank line.  Its length
    is the sum of theirs plus eleven characters each, a sixth or later
    candidate has no influence on the prompt, each of the first five is in
    the prompt that is sent to the service, and when the heuristics
    selected files the five are in the order the walk discovered them. *)
Theorem snippets_text_first_five
    (str : exn → string) (post : string → Client.Outcome)
    (code_dir : Dir) (library_name old_version new_version : string)
    (snippets : list (string * string)) :
  let block (l : list (string * string)) :=
    foldr (fun entry rest =>
             "--- " +:+ entry.1 +:+ " ---" +:+ Str.newline
             +:+ entry.2 +:+ Str.newline +:+ Str.newline +:+ rest) "" l in
  let sent (l : list (string * string)) :=
    prompt library_name old_version new_version (snippets_text l) in
  snippets_text snippets = block (take 5 snippets)
  ∧ length (take 5 snippets) ≤ 5
  ∧ take 5 snippets `prefix_of` snippets
  ∧ String.length (snippets_text snippets)
    = sum_list ((fun entry => String.length entry.1
                              + String.length entry.2 + 11)
                <$> take 5 snippets)
  ∧ (∀ others, take 5 others = take 5 snippets → sent others = sent snippets)
  ∧ Str.contains (block (take 5 snippets)) (sent snippets) = true
  ∧ (∀ file snippet,
       (file, snippet) ∈ take 5 snippets →
       Str.contains ("--- " +:+ file +:+ " ---" +:+ Str.newline
                     +:+ snippet +:+ Str.newline +:+ Str.newline)
                    (sent snippets) = true)
  ∧ Client.check_compatibility str post code_dir library_name
                               old_version new_version
    = Client.call str (post (sent (code_snippets code_dir library_name)))
  ∧ (scan code_dir library_name ≠ [] →
     (take 5 (code_snippets code_dir library_name)).*1
     `sublist_of` discovered code_dir).
Proof.
  intros block sent.
  assert (Hrender : ∀ entry rest,
            render entry +:+ rest
            = "--- " +:+ entry.1 +:+ " ---" +:+ Str.newline
              +:+ entry.2 +:+ Str.newline +:+ Str.newline +:+ rest).
  { intros [file snippet] rest. unfold render. by rewrite !append_assoc. }
  assert (Hfold : ∀ l, snippets_text l = block (take 5 l)).
  { intros l. unfold snippets_text, block. rewrite snippets_text_fold.
    change ("" +:+ ?x) with x.
    induction (take 5 l) as [|entry k IH]; simpl; [done|].
    by rewrite Hrender, IH. }
  assert (Hlen : ∀ l, String.length (block l)
            = sum_list ((fun entry => String.length entry.1
                                      + String.length entry.2 + 11) <$> l)).
  { unfold block. induction l as [|entry k IH]; [done|].
    rewrite fmap_cons. change (sum_list (?a :: ?b)) with (a + sum_list b).
    rewrite <- IH. cbn [foldr]. rewrite !length_append.
    simpl String.length. lia. }
  assert (Hsent : ∀ sub l, Str.contains sub (snippets_text l) = true →
                           Str.contains sub (sent l) = true).
  { intros sub l H. unfold sent, prompt.
    do 7 apply contains_append_r. by apply contains_append_l. }
  assert (Hhead : ∀ file snippet rest,
            "--- " +:+ file +:+ " ---" +:+ Str.newline
            +:+ snippet +:+ Str.newline +:+ Str.newline +:+ rest
            = ("--- " +:+ file +:+ " ---" +:+ Str.newline
               +:+ snippet +:+ Str.newline +:+ Str.newline) +:+ rest).
  { intros file snippet rest. by rewrite !append_assoc. }
  assert (Hin : ∀ l file snippet,
            (file, snippet) ∈ l →
            Str.contains ("--- " +:+ file +:+ " ---" +:+ Str.newline
                          +:+ snippet +:+ Str.newline +:+ Str.newline)
                         (block l) = true).
  { unfold block. induction l as [|entry k IH]; intros file snippet Hl;
      [by apply elem_of_nil in Hl|].
    cbn [foldr]. rewrite Hhead. apply elem_of_cons in Hl as [<-|Hl].
    - apply contains_prefix, prefix_append_self.
    - apply contains_append_r. by apply IH. }
  split; [apply Hfold|]. split; [rewrite length_take; lia|].
  split; [apply prefix_take|].
  split; [by rewrite Hfold, Hlen|].
  split; [intros others Hsame; unfold sent; by rewrite !Hfold, Hsame|].
  split.
  { apply Hsent. rewrite Hfold. apply contains_prefix.
    rewrite <- (append_nil_r (block _)) at 2. apply prefix_append_self. }
  split; [intros file snippet Hl; apply Hsent; rewrite Hfold; by apply Hin|].
  split; [done|].
  intros Hsel.
  assert (Hsn : code_snippets code_dir library_name
                = (scan code_dir library_name).*2).
  { unfold code_snippets. by destruct (scan code_dir library_name). }
  rewrite Hsn. etrans; [|apply scan_paths_sublist].
  apply fmap_sublist, sublist_take.
Qed.

Lemma snippets_text_first_five_witness :
  length (code_snippets ScanExamples.seven_dir "spring-core") = 7
  ∧ Str.contains ("--- " +:+ "e.java" +:+ " ---" +:+ Str.newline
                  +:+ "spring-core 5" +:+ Str.newline +:+ Str.newline)
                 (prompt "spring-core" "5.3.0" "5.3.20"
                    (snippets_text
                       (code_snippets ScanExamples.seven_dir "spring-core")))
    = true
  ∧ (take 5 (code_snippets ScanExamples.seven_dir "spring-core")).*1
    `sublist_of` discovered ScanExamples.seven_dir.
Proof.
  pose proof (snippets_text_first_five Examples.str ScanExamples.answering
                ScanExamples.seven_dir "spring-core" "5.3.0" "5.3.20"
                (code_snippets ScanExamples.seven_dir "spring-core"))
    as (_ & _ & _ & _ & _ & _ & Hin & _ & Hord).
  split; [reflexivity|]. split.
  - apply (Hin "e.java" "spring-core 5").
    do 4 apply list_elem_of_further. apply list_elem_of_here.
  - apply Hord. vm_compute. discriminate.
Defined.

(** C9, as stated, fails.  In [mixed_dir] the walk meets a file matched by
    an import marker only before the file that holds the literal library
    name; the candidates, and the snippet block, keep that order. *)
Lemma direct_match_not_placed_first :
  scan ScanExamples.mixed_dir "spring-core"
  = [(ImportMatch, ("A.java", "import org.springframework.X;"));
     (DirectNameMatch, ("B.java", "uses spring-core"))] ∧
  snippets_text (code_snippets ScanExamples.mixed_dir "spring-core")
  = render ("A.java", "import org.springframework.X;")
    +:+ render ("B.java", "uses spring-core").
Proof. by vm_compute. Qed.

(** C9 (amended): a readable file with a scanned extension that holds the
    literal library name becomes a candidate with reason DirectNameMatch;
    the candidates are then the files the heuristics selected, and their
    order is the order of discovery during the walk, whatever their
    reasons. *)
Theorem direct_match_in_discovery_order
    (code_dir : Dir) (library_name : string)
    (root : list string) (fs : list (string * File))
    (file : string) (f : File) (content : string) :
  (root, fs) ∈ walk [] code_dir →
  (file, f) ∈ fs →
  Str.endswith_any file extensions = true →
  read_ignore f = inr content →
  Str.contains library_name content = true →
  (DirectNameMatch, (relpath root file, truncate content))
    ∈ scan code_dir library_name
  ∧ code_snippets code_dir library_name = (scan code_dir library_name).*2
  ∧ (code_snippets code_dir library_name).*1 `sublist_of` discovered code_dir.
Proof.
  intros Hw Hf Hext Hread Hname.
  assert (Hin : (DirectNameMatch, (relpath root file, truncate content))
                  ∈ scan code_dir library_name).
  { apply scan_elem. exists root, fs, (file, f). repeat (split; [done|]).
    unfold visit, relevance. by rewrite Hext, Hread, Hname. }
  assert (Hsn : code_snippets code_dir library_name
                = (scan code_dir library_name).*2).
  { unfold code_snippets.
    destruct (scan code_dir library_name) as [|x l]; [|done].
    by apply elem_of_nil in Hin. }
  split; [done|]. split; [done|].
  rewrite Hsn. apply scan_paths_sublist.
Qed.

Lemma direct_match_in_discovery_order_witness :
  (DirectNameMatch, (relpath [] "B.java", truncate "uses spring-core"))
    ∈ scan ScanExamples.mixed_dir "spring-core"
  ∧ code_snippets ScanExamples.mixed_dir "spring-core"
    = (scan ScanExamples.mixed_dir "spring-core").*2
  ∧ (code_snippets ScanExamples.mixed_dir "spring-core").*1
    `sublist_of` discovered ScanExamples.mixed_dir.
Proof.
  apply (direct_match_in_discovery_order
           ScanExamples.mixed_dir "spring-core" []
           [("A.java", ScanExamples.text_file "import org.springframework.X;");
            ("B.java", ScanExamples.text_file "uses spring-core")]
           "B.java" (ScanExamples.text_file "uses spring-core")
           "uses spring-core").
  - apply list_elem_of_here.
  - apply list_elem_of_further, list_elem_of_here.
  - reflexivity.
  - reflexivity.
  - reflexivity.
Defined.

End ScannerClaims.

(** ** The HTTP call *)

Section ClientFacts.
Import Client.
Variable str : exn → string.

(** [body["content"][0]["text"]] returns exactly when the body has the
    shape [first_block_text] describes, and then returns that text. *)
Lemma first_text_spec body analysis :
  first_text body = inr analysis ↔ first_block_text body analysis.
Proof.
  unfold first_text, first_block_text. split.
  - destruct body as [| | | | |items|entries]; try done. simpl.
    destruct (Scanner.lookup_name "content" entries) as [content|] eqn:Hc;
      [|done].
    simpl. destruct content as [| | | |s|[|block rest]|fields]; try done.
    + simpl. by destruct (String.get 0 s).
    + simpl. destruct block as [| | | | |items'|fields]; try done. simpl.
      destruct (Scanner.lookup_name "text" fields) as [a|] eqn:Ha; [|done].
      intros [= <-]. by exists entries, (JObject fields), rest, fields.
  - intros (entries & block & rest & fields & -> & Hc & -> & Ha). simpl.
    rewrite Hc. simpl. by rewrite Ha.
Qed.

(** The [try] block never lets an exception out. *)
Lemma call_returns o : ∃ result, call str o = inr result.
Proof.
  unfold call, try_except.
  destruct (match o with
            | LogRaises e => _
            | PostRaises e' => _
            | Responds r => _
            end); eauto.
Qed.

Lemma call_raised o e :
  o = LogRaises e ∨ o = PostRaises e ∨
  (∃ response, o = Responds response ∧ status_code response = 200 ∧
               (json response = inl e ∨
                ∃ body, json response = inr body ∧ first_text body = inl e)) →
  call str o = inr (Error ("Error communicating with Claude API: " +:+ str e)).
Proof.
  intros [->|[->|(response & -> & Hs & Hj)]]; [done|done|].
  unfold call. rewrite Hs. simpl.
  destruct Hj as [->|(body & -> & Hb)]; [done|]. simpl. by rewrite Hb.
Qed.

Lemma call_success response body analysis :
  status_code response = 200 → json response = inr body →
  first_text body = inr analysis →
  call str (Responds response) = inr (Success analysis).
Proof. intros Hs Hj Hb. unfold call. rewrite Hs, Hj. simpl. by rewrite Hb. Qed.

Lemma call_other_status response :
  status_code response ≠ 200 →
  call str (Responds response)
  = inr (Error ("Failed to get response from Claude API: " +:+ text response)).
Proof.
  intros Hs. unfold call. apply Nat.eqb_neq in Hs. by rewrite Hs.
Qed.

End ClientFacts.

(** ** Claims on the HTTP call *)

Section ClientClaims.
Import Client.

(** C6: whatever the outcome of the call, [check_compatibility] returns a
    result and raises nothing.  On status 200 with a body whose first
    content block has a text, the result is Success with that text; on any
    other status it is the error that carries the raw body; when writing the
    log or posting raises, when the body cannot be decoded, or when the
    decoded body has no such first block, it is the error that carries the
    message of the exception. *)
Theorem check_compatibility_returns_result
    (str : exn → string) (post : string → Outcome)
    (code_dir : Scanner.Dir) (library_name old_version new_version : string) :
  let outcome :=
    post (Scanner.prompt library_name old_version new_version
            (Scanner.snippets_text
               (Scanner.code_snippets code_dir library_name))) in
  ∃ result,
    check_compatibility str post code_dir library_name old_version new_version
    = inr result
    ∧ (∀ response body analysis,
         outcome = Responds response → status_code response = 200 →
         json response = inr body → first_block_text body analysis →
         result = Success analysis)
    ∧ (∀ response,
         outcome = Responds response → status_code response ≠ 200 →
         result = Error ("Failed to get response from Claude API: "
                         +:+ text response))
    ∧ (∀ e,
         outcome = LogRaises e ∨ outcome = PostRaises e ∨
         (∃ response, outcome = Responds response ∧
                      status_code response = 200 ∧ json response = inl e) →
         result = Error ("Error communicating with Claude API: " +:+ str e))
    ∧ (∀ response body,
         outcome = Responds response → status_code response = 200 →
         json response = inr body →
         (∀ analysis, ¬ first_block_text body analysis) →
         ∃ e, result = Error ("Error communicating with Claude API: "
                              +:+ str e)).
Proof.
  intros outcome. unfold check_compatibility. fold outcome.
  destruct (call_returns str outcome) as [result Hr]. exists result.
  split; [done|]. repeat split.
  - intros response body analysis Ho Hs Hj Hb.
    apply first_text_spec in Hb.
    rewrite Ho, (call_success str _ _ _ Hs Hj Hb) in Hr. congruence.
  - intros response Ho Hs.
    rewrite Ho, (call_other_status str _ Hs) in Hr. congruence.
  - intros e He.
    assert (Hc := call_raised str outcome e). rewrite Hr in Hc.
    enough (inr result = inr (Error ("Error communicating with Claude API: "
                                     +:+ str e)) :> py _) by congruence.
    apply Hc. destruct He as [?|[?|(response & ? & ? & ?)]]; eauto 10.
  - intros response body Ho Hs Hj Hnone.
    destruct (first_text body) as [e|analysis] eqn:Hb.
    + exists e.
      assert (Hc := call_raised str outcome e). rewrite Hr in Hc.
      enough (inr result = inr (Error ("Error communicating with Claude API: "
                                       +:+ str e)) :> py _) by congruence.
      apply Hc. right; right. exists response. eauto 10.
    + apply first_text_spec in Hb. by destruct (Hnone analysis).
Qed.

Lemma check_compatibility_returns_result_witness :
  ∃ result,
    check_compatibility Examples.str ScanExamples.answering
                        ScanExamples.mixed_dir "spring-core" "5.3.0" "5.3.20"
    = inr result
    ∧ result = Success (JString "compatible").
Proof.
  destruct (check_compatibility_returns_result
              Examples.str ScanExamples.answering
              ScanExamples.mixed_dir "spring-core" "5.3.0" "5.3.20")
    as (result & Hr & Hok & _).
  exists result. split; [exact Hr|].
  eapply Hok; [reflexivity | reflexivity | reflexivity |].
  eexists _, _, _, _. repeat split; reflexivity.
Defined.

End ClientClaims.

(** * Further properties *)

(** ** Repeated updates of the manifest *)

Section EditorComposition.
Import ET Editor.
Variable str : exn → string.
Variable write : string → bool → Element → WriteOutcome.

Lemma iter_forest_insert cs i k c c' :
  cs !! i = Some c → iter c' = iter c →
  iter_forest (<[i := c']> cs) k = iter_forest cs k.
Proof.
  revert i k; induction cs as [|x cs IH]; intros i k Hi Hc; [done|].
  destruct i as [|i]; simpl in *.
  - injection Hi as ->. by rewrite Hc.
  - f_equal. by apply IH.
Qed.

(** Overwriting a text leaves the shape of the tree as it is. *)
Lemma iter_set_text root p v : iter (set_text root p v) = iter root.
Proof.
  revert root; induction p as [|i p IH]; intros root; simpl.
  - by rewrite !iter_unfold.
  - destruct (children root !! i) as [c|] eqn:Hc; [|done].
    rewrite !iter_unfold. simpl. f_equal.
    by apply (iter_forest_insert _ _ _ c).
Qed.

Lemma set_text_twice root p v1 v2 :
  set_text (set_text root p v1) p v2 = set_text root p v2.
Proof.
  revert root; induction p as [|i p IH]; intros root; simpl; [done|].
  destruct (children root !! i) as [c|] eqn:Hc; simpl; [|by rewrite Hc].
  rewrite list_lookup_insert_eq by (by eapply lookup_lt_Some).
  by rewrite list_insert_insert_eq, IH.
Qed.

Lemma label_tag (a b : option Element) :
  label <$> a = label <$> b →
  tag <$> a = tag <$> b ∧ text <$> a = text <$> b.
Proof.
  destruct a as [a|], b as [b|]; simpl; try done.
  unfold label. by intros [= -> _ -> _ _].
Qed.

Lemma tag_set_text root p v x q :
  node_at root p = Some x →
  tag <$> node_at (set_text root p v) q = tag <$> node_at root q.
Proof.
  intros Hp. destruct (decide (q = p)) as [->|Hne].
  - by rewrite (set_text_here _ _ _ _ Hp), Hp.
  - by apply label_tag, set_text_elsewhere.
Qed.

Lemma find_from_ext t cs cs' i :
  (∀ k, tag <$> cs !! k = tag <$> cs' !! k) →
  find_from t cs i = find_from t cs' i.
Proof.
  revert cs' i; induction cs as [|c cs IH]; intros cs' i H.
  - destruct cs' as [|c' cs']; [done|]. by specialize (H 0).
  - destruct cs' as [|c' cs']; [by specialize (H 0)|]. simpl.
    assert (H0 := H 0). simpl in H0. injection H0 as ->.
    destruct (String.eqb (tag c') t); [done|].
    apply IH. intros k. apply (H (S k)).
Qed.

Lemma find_set_text root p v x q dep dep' t :
  node_at root p = Some x →
  node_at root q = Some dep → node_at (set_text root p v) q = Some dep' →
  find dep' t = find dep t.
Proof.
  intros Hp Hq Hq'. apply find_from_ext. intros k.
  rewrite <- (node_at_snoc _ _ k _ Hq), <- (node_at_snoc _ _ k _ Hq').
  by eapply tag_set_text.
Qed.

Lemma findall_set_text root p v x t :
  node_at root p = Some x →
  findall_descendants (set_text root p v) t = findall_descendants root t.
Proof.
  intros Hp. unfold findall_descendants. rewrite iter_set_text.
  apply filter_ext. intros q. f_equal. unfold has_tag.
  assert (Ht := tag_set_text root p v x q Hp).
  destruct (node_at (set_text root p v) q), (node_at root q); simpl in Ht;
    try done. by injection Ht as ->.
Qed.

(** Overwriting the text of a [version] element does not change which
    dependency entries the loop accepts. *)
Lemma accepts_set_text root p v x library_name q :
  node_at root p = Some x → tag x = ns "version" →
  accepts (set_text root p v) library_name q = accepts root library_name q.
Proof.
  intros Hp Hx. unfold accepts.
  assert (Ht := tag_set_text root p v x q Hp).
  destruct (node_at (set_text root p v) q) as [dep'|] eqn:Hq',
           (node_at root q) as [dep|] eqn:Hq; simpl in Ht; try done.
  rewrite (find_set_text _ _ _ _ _ _ _ (ns "version") Hp Hq Hq'). f_equal.
  unfold artifact_is.
  rewrite (find_set_text _ _ _ _ _ _ _ (ns "artifactId") Hp Hq Hq').
  destruct (find dep (ns "artifactId")) as [i|] eqn:Hi; [|done].
  destruct (find_Some _ _ _ Hi) as (a & Ha & Hta).
  rewrite <- (node_at_snoc _ _ i _ Hq'), <- (node_at_snoc _ _ i _ Hq).
  assert (Hne : q ++ [i] ≠ p).
  { intros <-. rewrite (node_at_snoc _ _ i _ Hq), Ha in Hp.
    injection Hp as ->. rewrite Hx in Hta. by vm_compute in Hta. }
  destruct (label_tag _ _ (set_text_elsewhere root p v _ Hne)) as [_ Htx].
  destruct (node_at (set_text root p v) (q ++ [i])),
           (node_at root (q ++ [i])); simpl in Htx; try done.
  by injection Htx as ->.
Qed.

Lemma accepted_or_none (f : path → bool) (l : list path) :
  (∀ d, d ∈ l → f d = false) ∨ (∃ d, d ∈ l ∧ f d = true).
Proof.
  induction l as [|x l [IH|(d & Hd & Hf)]].
  - left. intros d Hd. by apply elem_of_nil in Hd.
  - destruct (f x) eqn:Hx.
    + right. exists x. split; [apply list_elem_of_here | done].
    + left. intros d Hd. apply elem_of_cons in Hd as [->|Hd]; auto.
  - right. exists d. split; [by apply list_elem_of_further | done].
Qed.

Lemma versioned_entry_first root library_name :
  (∃ d e, d ≠ [] ∧ node_at root d = Some e ∧
          is_versioned_entry library_name e = true) →
  ∃ l1 d l2,
    findall_descendants root (ns "dependency") = l1 ++ d :: l2 ∧
    (∀ q, q ∈ l1 → accepts root library_name q = false) ∧
    accepts root library_name d = true.
Proof.
  intros (d & e & Hne & Hd & He). unfold is_versioned_entry in He.
  apply andb_true_iff in He as [He Hv]. apply andb_true_iff in He as [Ht Ha].
  apply String.eqb_eq in Ht.
  assert (Hin := findall_descendants_elem _ _ _ _ Hne Hd Ht).
  assert (Hacc : accepts root library_name d = true).
  { unfold accepts. by rewrite Hd, Ha, Hv. }
  destruct (first_accepted _ _ _ Hin Hacc) as (l1 & d' & l2 & ? & ? & ?).
  by exists l1, d', l2.
Qed.

Lemma rewritten_first root library_name new_version root' :
  rewritten root library_name new_version = Some root' →
  ∃ l1 d l2,
    findall_descendants root (ns "dependency") = l1 ++ d :: l2 ∧
    (∀ q, q ∈ l1 → accepts root library_name q = false) ∧
    accepts root library_name d = true.
Proof.
  intros Hr.
  destruct (accepted_or_none (accepts root library_name)
              (findall_descendants root (ns "dependency")))
    as [Hnone|(d & Hd & Hacc)].
  - unfold rewritten in Hr. by rewrite (search_none _ _ _ Hnone) in Hr.
  - destruct (first_accepted _ _ _ Hd Hacc) as (l1 & d' & l2 & ? & ? & ?).
    by exists l1, d', l2.
Qed.

Lemma accepted_is_entry root library_name d :
  d ∈ findall_descendants root (ns "dependency") →
  accepts root library_name d = true →
  ∃ e, d ≠ [] ∧ node_at root d = Some e ∧
       is_versioned_entry library_name e = true.
Proof.
  intros Hd Hacc. destruct (findall_descendants_tag _ _ _ Hd) as (e & He & Ht).
  exists e. split.
  { intros ->. unfold findall_descendants in Hd.
    apply list_elem_of_In, filter_In in Hd as [_ Hd].
    apply andb_true_iff in Hd as [_ Hd]. done. }
  split; [done|]. unfold accepts in Hacc. rewrite He in Hacc.
  unfold is_versioned_entry. by rewrite Ht, String.eqb_refl.
Qed.

(** X1: the update succeeds exactly when the manifest has, below its root,
    a [dependency] element of the POM namespace whose first [artifactId]
    child holds the requested name and which has a [version] child, and
    the write of the rewritten tree returns. *)
Theorem update_succeeds_iff
    (code_dir : gmap string FileContent) (doc : Document)
    (library_name new_version : string) :
  code_dir !! "pom.xml" = Some (Xml doc) →
  (∃ message code_dir',
     update_library_version str write code_dir library_name new_version
     = (Success message, code_dir'))
  ↔ (∃ d e, d ≠ [] ∧ node_at (getroot doc) d = Some e ∧
            is_versioned_entry library_name e = true)
    ∧ (∃ root' content,
         rewritten (getroot doc) library_name new_version = Some root' ∧
         write "utf-8" true root' = Written content).
Proof.
  intros Hpom. split.
  - intros (message & code_dir' & Hup).
    destruct (accepted_or_none (accepts (getroot doc) library_name)
                (findall_descendants (getroot doc) (ns "dependency")))
      as [Hnone|(d & Hd & Hacc)].
    { rewrite (update_not_found str write _ doc _ _ Hpom Hnone) in Hup. done. }
    split.
    { destruct (accepted_is_entry _ _ _ Hd Hacc) as (e & ?). by exists d, e. }
    destruct (first_accepted _ _ _ Hd Hacc) as (l1 & d' & l2 & Hall & Hl1 & Hd').
    destruct (update_found str write _ _ _ new_version _ _ _ Hpom Hall Hl1 Hd')
      as (dep & j & version & _ & _ & _ & _ & _ & Hrw & Hup').
    rewrite Hup' in Hup.
    destruct (write "utf-8" true _) as [content|e remains] eqn:Hw; [|done].
    eauto.
  - intros [Hentry (root' & content & Hrw & Hw)].
    destruct (versioned_entry_first _ _ Hentry)
      as (l1 & d & l2 & Hall & Hl1 & Hd).
    destruct (update_found str write _ _ _ new_version _ _ _ Hpom Hall Hl1 Hd)
      as (dep & j & version & _ & _ & _ & _ & _ & Hrw' & Hup).
    rewrite Hrw in Hrw'. injection Hrw' as ->.
    rewrite Hup, Hw. eauto.
Qed.

(** X2: a second update reads back what the first one wrote, and the last
    write wins, provided the first write stored a file that re-reads as the
    tree it was given.  Then updating to [v1] and afterwards to [v2] hands
    the writer the tree a single update to [v2] would, and when that write
    returns, the second call reports the old version [v1] and leaves the
    directory as the single update would. *)
Theorem update_twice
    (code_dir : gmap string FileContent) (doc doc1 : Document)
    (library_name v1 v2 : string) (root1 : Element) :
  code_dir !! "pom.xml" = Some (Xml doc) →
  rewritten (getroot doc) library_name v1 = Some root1 →
  write "utf-8" true root1 = Written (Xml doc1) →
  getroot doc1 = root1 →
  ∃ root2,
    rewritten (getroot doc) library_name v2 = Some root2 ∧
    rewritten root1 library_name v2 = Some root2 ∧
    ∀ content,
      write "utf-8" true root2 = Written content →
      update_library_version str write
        (update_library_version str write code_dir library_name v1).2
        library_name v2
      = (Success ("Updated " +:+ library_name +:+ " from " +:+ v1
                  +:+ " to " +:+ v2),
         (update_library_version str write code_dir library_name v2).2).
Proof.
  intros Hpom Hrw1 Hw1 Hroot1.
  destruct (rewritten_first _ _ _ _ Hrw1) as (l1 & d & l2 & Hall & Hl1 & Hd).
  destruct (update_found str write _ _ _ v1 _ _ _ Hpom Hall Hl1 Hd)
    as (dep & j & version & Hdep & _ & Hj & Hver & Htag & Hrw1' & Hup1).
  destruct (update_found str write _ _ _ v2 _ _ _ Hpom Hall Hl1 Hd)
    as (dep2 & j2 & version2 & Hdep2 & _ & Hj2 & _ & _ & Hrw2 & Hup2).
  assert (dep2 = dep) as -> by congruence.
  assert (j2 = j) as -> by congruence.
  rewrite Hrw1 in Hrw1'. injection Hrw1' as Hr1.
  assert (Hp : node_at (getroot doc) (d ++ [j]) = Some version).
  { by rewrite (node_at_snoc _ _ _ _ Hdep). }
  set (dir1 := (update_library_version str write code_dir library_name v1).2).
  assert (Hdir1 : dir1 = <["pom.xml" := Xml doc1]> code_dir).
  { unfold dir1. by rewrite Hup1, <- Hr1, Hw1. }
  assert (Hpom1 : dir1 !! "pom.xml" = Some (Xml doc1)).
  { rewrite Hdir1. apply lookup_insert_eq. }
  assert (Hall1 : findall_descendants (getroot doc1) (ns "dependency")
                  = l1 ++ d :: l2).
  { rewrite Hroot1, Hr1. by rewrite (findall_set_text _ _ _ _ _ Hp). }
  assert (Hacc1 : ∀ q, accepts (getroot doc1) library_name q
                       = accepts (getroot doc) library_name q).
  { intros q. rewrite Hroot1, Hr1. by apply (accepts_set_text _ _ _ version). }
  destruct (update_found str write dir1 doc1 library_name v2
              l1 d l2 Hpom1 Hall1)
    as (dep1 & j1 & version1 & Hdep1 & _ & Hj1 & Hver1 & _ & Hrw & Hup).
  { intros q Hq. rewrite Hacc1. by apply Hl1. }
  { by rewrite Hacc1. }
  rewrite Hroot1 in Hdep1, Hrw, Hup. rewrite Hr1 in Hdep1, Hrw, Hup.
  assert (j1 = j) as ->.
  { rewrite (find_set_text _ _ _ _ _ _ _ (ns "version") Hp Hdep Hdep1) in Hj1.
    congruence. }
  assert (Hv1 : text version1 = Some v1).
  { rewrite <- (node_at_snoc _ _ _ _ Hdep1) in Hver1.
    rewrite (set_text_here _ _ _ _ Hp) in Hver1. by injection Hver1 as <-. }
  rewrite set_text_twice in Hrw, Hup.
  exists (set_text (getroot doc) (d ++ [j]) (Some v2)).
  split; [done|]. split; [by rewrite Hr1|].
  intros content Hw. rewrite Hup, Hup2, Hw, Hv1. simpl. f_equal.
  by rewrite Hdir1, insert_insert_eq.
Qed.

(** X3: whatever the outcome, the update touches no entry of the directory
    other than [pom.xml] and neither creates nor removes an entry. *)
Theorem update_touches_only_pom
    (code_dir : gmap string FileContent) (library_name new_version : string) :
  let after :=
    (update_library_version str write code_dir library_name new_version).2 in
  (∀ name, name ≠ "pom.xml" → after !! name = code_dir !! name)
  ∧ dom after = dom code_dir.
Proof.
  unfold update_library_version.
  destruct (code_dir !! "pom.xml") as [[e|doc]|] eqn:Hpom; simpl; try done.
  destruct (search _ _ _) as [[old version]|]; simpl; [|done].
  assert (Hins : ∀ content,
            (∀ name, name ≠ "pom.xml" →
                     (<["pom.xml" := content]> code_dir) !! name
                     = code_dir !! name)
            ∧ dom (<["pom.xml" := content]> code_dir) = dom code_dir).
  { intros content. split.
    - intros name Hne. by rewrite lookup_insert_ne.
    - rewrite dom_insert_L. apply subseteq_union_1_L, singleton_subseteq_l.
      by apply elem_of_dom_2 in Hpom. }
  destruct (write "utf-8" true _) as [content|e [content|]]; simpl;
    [apply Hins | apply Hins | done].
Qed.

End EditorComposition.

Section EditorCompositionWitnesses.
Import ET Editor.

Lemma update_succeeds_iff_witness :
  ∃ message code_dir',
    update_library_version Examples.str Examples.ideal_write
      (Examples.in_dir (Doc true "UTF-8" Examples.spring_pom))
      "spring-web" "6.0.0"
    = (Success message, code_dir').
Proof.
  apply (update_succeeds_iff Examples.str Examples.ideal_write
           (Examples.in_dir (Doc true "UTF-8" Examples.spring_pom))
           (Doc true "UTF-8" Examples.spring_pom) "spring-web" "6.0.0" eq_refl).
  split.
  - exists [0; 1], (Examples.entry "spring-web" "5.3.0").
    split; [discriminate|]. split; reflexivity.
  - eexists _, _. split; reflexivity.
Defined.

Lemma update_twice_witness :
  ∃ root2,
    rewritten Examples.spring_pom "spring-core" "6.0.0" = Some root2 ∧
    rewritten
      (Examples.project [Examples.entry "spring-core" "5.3.20";
                         Examples.entry "spring-web" "5.3.0"])
      "spring-core" "6.0.0" = Some root2 ∧
    ∀ content,
      Examples.ideal_write "utf-8" true root2 = Written content →
      update_library_version Examples.str Examples.ideal_write
        (update_library_version Examples.str Examples.ideal_write
           (Examples.in_dir (Doc true "UTF-8" Examples.spring_pom))
           "spring-core" "5.3.20").2 "spring-core" "6.0.0"
      = (Success ("Updated " +:+ "spring-core" +:+ " from " +:+ "5.3.20"
                  +:+ " to " +:+ "6.0.0"),
         (update_library_version Examples.str Examples.ideal_write
            (Examples.in_dir (Doc true "UTF-8" Examples.spring_pom))
            "spring-core" "6.0.0").2).
Proof.
  apply (update_twice Examples.str Examples.ideal_write
           (Examples.in_dir (Doc true "UTF-8" Examples.spring_pom))
           (Doc true "UTF-8" Examples.spring_pom)
           (Doc true "utf-8"
              (Examples.project [Examples.entry "spring-core" "5.3.20";
                                 Examples.entry "spring-web" "5.3.0"]))
           "spring-core" "5.3.20" "6.0.0"
           (Examples.project [Examples.entry "spring-core" "5.3.20";
                              Examples.entry "spring-web" "5.3.0"]));
    reflexivity.
Defined.

End EditorCompositionWitnesses.

(** ** Selection and truncation *)

Section ScannerProperties.
Import Scanner.



Lemma slice_to_all n s : String.length s ≤ n → Str.slice_to n s = s.
Proof.
  unfold Str.slice_to. revert s; induction n as [|n IH]; intros s H.
  - destruct s; [done | simpl in H; lia].
  - destruct s as [|c s]; [done|]. simpl. f_equal. apply IH. simpl in H. lia.
Qed.

(** X4: a snippet is appended for a file exactly when the walk meets the
    file, its name has one of the five extensions, it can be read, and the
    relevance test gives a reason; the snippet then holds the path relative
    to the scanned directory and the truncated content.  Files that cannot
    be read or have another extension never contribute. *)
Theorem scan_selects_iff
    (code_dir : Dir) (library_name : string)
    (reason : MatchReason) (path content : string) :
  (reason, (path, content)) ∈ scan code_dir library_name
  ↔ ∃ root fs file f raw,
      (root, fs) ∈ walk [] code_dir ∧ (file, f) ∈ fs ∧
      Str.endswith_any file extensions = true ∧
      read_ignore f = inr raw ∧
      relevance library_name file raw = Some reason ∧
      path = relpath root file ∧ content = truncate raw.
Proof.
  rewrite scan_elem. split.
  - intros (root & fs & [file f] & Hw & He & Hv).
    apply visit_Some in Hv as (raw & ? & ? & ? & ? & ?).
    by exists root, fs, file, f, raw.
  - intros (root & fs & file & f & raw & Hw & He & Hext & Hread & Hrel & -> & ->).
    exists root, fs, (file, f). repeat (split; [done|]).
    unfold visit. by rewrite Hext, Hread, Hrel.
Qed.

Lemma relevance_unfold library_name file content :
  relevance library_name file content
  = if Str.contains library_name content then Some DirectNameMatch
    else if Str.contains "spring" (Str.lower library_name)
    then (if existsb (fun import_str => Str.contains import_str content)
                     spring_imports
          then Some ImportMatch else None)
    else if Str.endswith file ".xml"
            && Str.contains "dependency" content
            && (Str.contains "spring" (Str.lower content)
                || Str.contains (Str.lower library_name) (Str.lower content))
    then Some DependencyDeclarationMatch
    else None.
Proof.
  unfold relevance, imports_to_check.
  destruct (Str.contains library_name content); [done|].
  by destruct (Str.contains "spring" (Str.lower library_name)).
Qed.

(** X5: the three reasons, as the [if] / [elif] chain gives them.  The
    literal name decides first; the import markers are consulted only for a
    library whose lower-cased name holds [spring]; the descriptor test is
    made only for the other libraries. *)
Theorem relevance_reasons (library_name file content : string) :
  (relevance library_name file content = Some DirectNameMatch
   ↔ Str.contains library_name content = true)
  ∧
  (relevance library_name file content = Some ImportMatch
   ↔ Str.contains library_name content = false ∧
     Str.contains "spring" (Str.lower library_name) = true ∧
     ∃ import_str, import_str ∈ spring_imports ∧
                   Str.contains import_str content = true)
  ∧
  (relevance library_name file content = Some DependencyDeclarationMatch
   ↔ Str.contains library_name content = false ∧
     Str.contains "spring" (Str.lower library_name) = false ∧
     Str.endswith file ".xml" = true ∧
     Str.contains "dependency" content = true ∧
     (Str.contains "spring" (Str.lower content) = true ∨
      Str.contains (Str.lower library_name) (Str.lower content) = true)).
Proof.
  rewrite relevance_unfold.
  assert (Hex : (∃ import_str, import_str ∈ spring_imports ∧
                               Str.contains import_str content = true)
                ↔ existsb (fun import_str => Str.contains import_str content)
                          spring_imports = true).
  { rewrite existsb_exists. by setoid_rewrite list_elem_of_In. }
  rewrite Hex. clear Hex.
  destruct (Str.contains library_name content),
           (Str.contains "spring" (Str.lower library_name)),
           (existsb _ spring_imports),
           (Str.endswith file ".xml"),
           (Str.contains "dependency" content),
           (Str.contains "spring" (Str.lower content)),
           (Str.contains (Str.lower library_name) (Str.lower content));
    simpl; naive_solver.
Qed.

(** X6: with an empty library name every readable file with a scanned
    extension is selected, as a direct name match, since the empty string
    occurs in every text. *)
Theorem empty_name_selects_every_file
    (code_dir : Dir) (root : list string) (fs : list (string * File))
    (file : string) (f : File) (raw : string) :
  (root, fs) ∈ walk [] code_dir → (file, f) ∈ fs →
  Str.endswith_any file extensions = true → read_ignore f = inr raw →
  (DirectNameMatch, (relpath root file, truncate raw)) ∈ scan code_dir "".
Proof.
  intros Hw Hf Hext Hread. apply scan_elem.
  exists root, fs, (file, f). repeat (split; [done|]).
  unfold visit, relevance. by rewrite Hext, Hread, contains_empty.
Qed.


(** X8: when the heuristics select at least one file, every snippet handed
    to the prompt is at most 2000 characters plus the truncation suffix. *)
Theorem selected_snippets_bounded (code_dir : Dir) (library_name : string) :
  scan code_dir library_name ≠ [] →
  Forall (fun entry => String.length entry.2
                       ≤ 2000 + String.length truncation_suffix)
         (code_snippets code_dir library_name).
Proof.
  intros Hsel.
  assert (Hsn : code_snippets code_dir library_name
                = (scan code_dir library_name).*2).
  { unfold code_snippets. by destruct (scan code_dir library_name). }
  rewrite Hsn. apply Forall_forall. intros [file content] Hin.
  apply list_elem_of_fmap in Hin as ([reason [file' content']] & [= <- <-] & Hin).
  by eapply scan_content_bounded.
Qed.

Lemma selected_snippets_bounded_witness :
  Forall (fun entry => String.length entry.2
                       ≤ 2000 + String.length truncation_suffix)
         (code_snippets ScanExamples.mixed_dir "spring-core").
Proof.
  apply (selected_snippets_bounded ScanExamples.mixed_dir "spring-core").
  vm_compute. discriminate.
Defined.

(** X9: the candidate list is empty exactly when the heuristics select no
    file and the root [pom.xml] is missing or cannot be read. *)
Theorem code_snippets_empty_iff (code_dir : Dir) (library_name : string) :
  code_snippets code_dir library_name = []
  ↔ scan code_dir library_name = [] ∧
    (pom_exists code_dir = false ∨ ∃ e, read_pom code_dir = inl e).
Proof.
  unfold code_snippets.
  destruct (scan code_dir library_name) as [|x l]; simpl.
  - destruct (pom_exists code_dir).
    + destruct (read_pom code_dir) as [e|pom_content].
      * split; [|done]. intros _. split; [done|]. right. by exists e.
      * split; [done|]. by intros [_ [?|[e ?]]].
    + split; [|done]. intros _. split; [done | by left].
  - split; [done | by intros [? _]].
Qed.

Lemma empty_name_selects_every_file_witness :
  (DirectNameMatch, (relpath [] "A.java",
                     truncate "import org.springframework.X;"))
    ∈ scan ScanExamples.mixed_dir "".
Proof.
  apply (empty_name_selects_every_file ScanExamples.mixed_dir []
           [("A.java", ScanExamples.text_file "import org.springframework.X;");
            ("B.java", ScanExamples.text_file "uses spring-core")]
           "A.java" (ScanExamples.text_file "import org.springframework.X;")
           "import org.springframework.X;").
  - apply list_elem_of_here.
  - apply list_elem_of_here.
  - reflexivity.
  - reflexivity.
Defined.

End ScannerProperties.

(** ** Outcomes of the HTTP call *)

Section ClientProperties.
Import Client.
Variable str : exn → string.

(** X10: the call yields Success exactly when a response arrives with
    status 200 and a decodable body whose first content block has a text,
    and the payload is that text; log failures, transport failures, other
    statuses and other bodies never yield Success. *)
Theorem call_succeeds_iff (o : Outcome) (analysis : Json) :
  call str o = inr (Success analysis)
  ↔ ∃ response body,
      o = Responds response ∧ status_code response = 200 ∧
      json response = inr body ∧ first_block_text body analysis.
Proof.
  split.
  - destruct o as [e|e|response]; [done|done|]. unfold call.
    destruct (status_code response =? 200) eqn:Hs; [|done].
    apply Nat.eqb_eq in Hs.
    destruct (json response) as [e|body] eqn:Hj; [done|]. simpl.
    destruct (first_text body) as [e|a] eqn:Hb; [done|]. simpl.
    intros [= <-]. exists response, body. repeat (split; [done|]).
    by apply first_text_spec.
  - intros (response & body & -> & Hs & Hj & Hb).
    apply first_text_spec in Hb. by apply (call_success str _ body).
Qed.

(** X11: what a response with status 200 and an unexpected body gives.  A
    body that is not an object raises the [TypeError] of subscripting a
    value of its type with a string; an object without
    [content] raises [KeyError] for [content]; an empty [content] list
    raises [IndexError]; a first block without [text] raises [KeyError]
    for [text].  Each is caught and reported as the communication error
    with the message of that exception. *)
Theorem call_unexpected_body (response : Response) (body : Json) :
  status_code response = 200 → json response = inr body →
  let reported e :=
    call str (Responds response)
    = inr (Error ("Error communicating with Claude API: " +:+ str e)) in
  ((∀ entries, body ≠ JObject entries) →
   reported (TypeError (type_of body) PyStr))
  ∧ (∀ entries,
       body = JObject entries →
       Scanner.lookup_name "content" entries = None →
       reported (KeyError "content"))
  ∧ (∀ entries,
       body = JObject entries →
       Scanner.lookup_name "content" entries = Some (JArray []) →
       reported IndexError)
  ∧ (∀ entries fields rest,
       body = JObject entries →
       Scanner.lookup_name "content" entries
       = Some (JArray (JObject fields :: rest)) →
       Scanner.lookup_name "text" fields = None →
       reported (KeyError "text")).
Proof.
  intros Hs Hj reported.
  assert (Hcall : ∀ e, first_text body = inl e → reported e).
  { intros e He. apply call_raised. right; right. exists response.
    split; [done|]. split; [done|]. right. by exists body. }
  split; [|split; [|split]].
  - intros Hno. apply Hcall. destruct body; try reflexivity.
    by destruct (Hno entries).
  - intros entries -> Hc. apply Hcall. unfold first_text. simpl. by rewrite Hc.
  - intros entries -> Hc. apply Hcall. unfold first_text. simpl. by rewrite Hc.
  - intros entries fields rest -> Hc Ht. apply Hcall. unfold first_text. simpl.
    rewrite Hc. simpl. by rewrite Ht.
Qed.

End ClientProperties.

Section ClientPropertiesWitnesses.
Import Client.

Lemma call_unexpected_body_witness :
  call Examples.str
    (Responds (MkResponse 200 "{}" (inr (JObject []))))
  = inr (Error ("Error communicating with Claude API: "
                +:+ Examples.str (KeyError "content"))).
Proof.
  apply (proj1 (proj2 (call_unexpected_body Examples.str
                         (MkResponse 200 "{}" (inr (JObject [])))
                         (JObject []) eq_refl eq_refl))
               []); reflexivity.
Defined.

End ClientPropertiesWitnesses.

(** ** The resources *)

Section ResourceProperties.
Import Resources.

Lemma append_inj_r (s1 s2 t : string) : s1 +:+ t = s2 +:+ t → s1 = s2.
Proof.
  revert s2; induction s1 as [|c s1 IH]; intros [|c' s2] H; [done| | |].
  - apply (f_equal String.length) in H.
    rewrite !length_append in H. simpl in H. lia.
  - apply (f_equal String.length) in H.
    rewrite !length_append in H. simpl in H. lia.
  - rewrite !append_cons in H. injection H as -> H. f_equal. by apply IH.
Qed.

(** X12: the greeting determines the name: different names give different
    greetings, and the greeting is eight characters longer than the
    name. *)
Theorem get_greeting_injective (name1 name2 : string) :
  (get_greeting name1 = get_greeting name2 → name1 = name2)
  ∧ String.length (get_greeting name1) = String.length name1 + 8.
Proof.
  unfold get_greeting. split.
  - intros H. apply (inj (String.append "Hello, ")) in H.
    by apply append_inj_r in H.
  - rewrite !length_append. simpl. lia.
Qed.

Lemma get_greeting_injective_witness : "World" = "World".
Proof.
  apply (proj1 (get_greeting_injective "World" "World")). reflexivity.
Defined.





End ResourceProperties.
